(** * CultureCoded SDK (JavaScript binding): the API client

    A shallow embedding of [javascript/src/client.ts] (class [CultureCoded])
    and of the interfaces of [javascript/src/types.ts] it uses.

    Conventions of the embedding.

    - A JavaScript string is a [string] holding its bytes in generalised
      UTF-8: the UTF-8 encoding of its code points, where a surrogate code
      unit that is not part of a pair is written as the three bytes
      [ED A0..BF 80..BF].  Comparison with a literal is byte-wise, and so
      is every concatenation the client makes: at each seam one side is
      an ASCII character of a literal (the [/] that starts or ends a path),
      so that no surrogate pair forms there.
    - [undefined] is [None]: an optional property of an interface is an
      [option], and so is the result of reading a property.
    - An [async] method is a computation in the monad [M]: it may call
      [fetch], whose calls are recorded in order, and it ends by returning a
      value (the promise is fulfilled) or by throwing (the promise is
      rejected).  [fetch] itself is the environment: a function from the
      request to what the promise settles to. *)

From Stdlib Require Import String Ascii List NArith Bool Lia DecimalString.
Import ListNotations.

Set Warnings "-register-all".

Local Open Scope string_scope.
Local Open Scope N_scope.

(** ** JavaScript values that come out of [JSON.parse] *)

(** A number is kept as the string [Number.prototype.toString] gives for it
    (["402"], ["1.5"], ["1e+21"]); both zeros are ["0"].  An object is the
    list of its own properties, each name once, in the order of
    insertion. *)
Inductive Json : Type :=
| JNull
| JBool (b : bool)
| JNumber (repr : string)
| JString (s : string)
| JArray (items : list Json)
| JObject (props : list (string * Json)).

(** What a method can throw, or an [async] method reject with. *)
Record ErrorObject : Type := mkError {
  message : string;
  status : option N;
  code : option Json
}.

Inductive Thrown : Type :=
| Error (e : ErrorObject)          (* [new Error(...)], with the properties set on it *)
| SyntaxError                      (* [response.json()] on a body that is not JSON *)
| TypeError                        (* reading a property of [null]; a failed ToPrimitive *)
| URIError                         (* [encodeURIComponent] on a lone surrogate *)
| FetchRejected (reason : string). (* the promise of [fetch] was rejected *)

(** ToBoolean. *)
Definition truthy (v : Json) : bool :=
  match v with
  | JNull => false
  | JBool b => b
  | JNumber repr => negb (repr =? "0")%string
  | JString s => negb (s =? "")%string
  | JArray _ => true
  | JObject _ => true
  end.

Fixpoint own_property (props : list (string * Json)) (name : string) : option Json :=
  match props with
  | [] => None
  | (k, v) :: rest => if (k =? name)%string then Some v else own_property rest name
  end.

(** The property [name] of a value that is not [null], for a [name] that no
    prototype defines (such as [message] and [code]): the own property of an
    object, [undefined] on an array or a primitive. *)
Definition member (v : Json) (name : string) : option Json :=
  match v with
  | JObject props => own_property props name
  | _ => None
  end.

(** [v.name]: reading a property of [null] throws a [TypeError]. *)
Definition get_member (v : Json) (name : string) : Thrown + option Json :=
  match v with
  | JNull => inl TypeError
  | _ => inr (member v name)
  end.

(** [a || b], with a left operand that may be [undefined]. *)
Definition or_else (a : option Json) (b : Json) : Json :=
  match a with
  | Some v => if truthy v then v else b
  | None => b
  end.

(** ToString.  An array is its elements joined by commas, [null] elements
    being empty; an object is ["[object Object]"] unless an own [toString]
    property, which cannot be a function here, hides
    [Object.prototype.toString], and then the conversion throws a
    [TypeError] ([None]). *)
Fixpoint js_ToString (v : Json) : option string :=
  match v with
  | JNull => Some "null"
  | JBool true => Some "true"
  | JBool false => Some "false"
  | JNumber repr => Some repr
  | JString s => Some s
  | JArray items =>
      (fix join (l : list Json) : option string :=
         match l with
         | [] => Some ""
         | x :: rest =>
             let first := match x with JNull => Some "" | _ => js_ToString x end in
             match first, rest with
             | None, _ => None
             | Some e, [] => Some e
             | Some e, _ :: _ =>
                 match join rest with
                 | Some r => Some (e ++ "," ++ r)
                 | None => None
                 end
             end
         end) items
  | JObject props =>
      match own_property props "toString" with
      | Some _ => None
      | None => Some "[object Object]"
      end
  end.

(** The decimal digits of a number, as a template literal prints them. *)
Definition decimal (n : N) : string := NilZero.string_of_uint (N.to_uint n).

(** ** Hexadecimal digits and byte tests *)

Definition hex_digit (upper : bool) (d : N) : ascii :=
  if d <? 10 then ascii_of_N (48 + d)
  else ascii_of_N ((if upper then 55 else 87) + d).

Definition byte_in (lo hi : N) (a : ascii) : bool :=
  let n := N_of_ascii a in (lo <=? n) && (n <=? hi).

(** The first two bytes of a surrogate code unit that stands alone. *)
Definition lone_surrogate (a : ascii) (rest : string) : bool :=
  match rest with
  | String b _ => (N_of_ascii a =? 237) && byte_in 160 191 b
  | EmptyString => false
  end.

(** ** [encodeURIComponent] *)

(** The characters the function leaves alone: letters, digits and
    [- _ . ! ~ * ' ( )]. *)
Definition uri_unreserved (a : ascii) : bool :=
  byte_in 65 90 a || byte_in 97 122 a || byte_in 48 57 a ||
  existsb (N.eqb (N_of_ascii a)) [45; 95; 46; 33; 126; 42; 39; 40; 41].

Definition percent_escape (a : ascii) : string :=
  let n := N_of_ascii a in
  String "%" (String (hex_digit true (n / 16)) (String (hex_digit true (n mod 16)) "")).

(** Every other character is replaced by the escapes of the bytes of its
    UTF-8 encoding, which are the bytes the string holds; a surrogate that
    stands alone has no UTF-8 encoding and the function throws [URIError]
    ([None]). *)
Fixpoint encodeURIComponent (s : string) : option string :=
  match s with
  | EmptyString => Some ""
  | String a rest =>
      if uri_unreserved a then option_map (String a) (encodeURIComponent rest)
      else if lone_surrogate a rest then None
      else option_map (append (percent_escape a)) (encodeURIComponent rest)
  end.

(** ** [JSON.stringify] *)

Definition dquote : ascii := "034"%char.

Definition hex4 (n : N) : string :=
  String (hex_digit false (n / 4096))
    (String (hex_digit false ((n / 256) mod 16))
       (String (hex_digit false ((n / 16) mod 16))
          (String (hex_digit false (n mod 16)) ""))).

(** The characters of a string between its quotes: the quote and the
    backslash are escaped, control characters are written with their short
    escape or as [\u00xx], a lone surrogate as [\udxxx]. *)
Fixpoint json_escape (s : string) : string :=
  match s with
  | EmptyString => ""
  | String a rest =>
      let n := N_of_ascii a in
      if n =? 34 then String "\" (String dquote (json_escape rest))
      else if n =? 92 then "\\" ++ json_escape rest
      else if n =? 8 then "\b" ++ json_escape rest
      else if n =? 9 then "\t" ++ json_escape rest
      else if n =? 10 then "\n" ++ json_escape rest
      else if n =? 12 then "\f" ++ json_escape rest
      else if n =? 13 then "\r" ++ json_escape rest
      else if n <? 32 then "\u" ++ hex4 n ++ json_escape rest
      else
        match rest with
        | String b (String c rest') =>
            if lone_surrogate a rest
            then "\u" ++ hex4 (53248 + (N_of_ascii b - 128) * 64 + (N_of_ascii c - 128))
                   ++ json_escape rest'
            else String a (json_escape rest)
        | _ => String a (json_escape rest)
        end
  end.

Definition json_quote (s : string) : string :=
  String dquote (json_escape s ++ String dquote "").

Fixpoint JSON_stringify (v : Json) : string :=
  match v with
  | JNull => "null"
  | JBool true => "true"
  | JBool false => "false"
  | JNumber repr => repr
  | JString s => json_quote s
  | JArray items =>
      "[" ++
      (fix elements (l : list Json) : string :=
         match l with
         | [] => ""
         | x :: [] => JSON_stringify x
         | x :: rest => JSON_stringify x ++ "," ++ elements rest
         end) items
      ++ "]"
  | JObject props =>
      "{" ++
      (fix members (l : list (string * Json)) : string :=
         match l with
         | [] => ""
         | (k, x) :: [] => json_quote k ++ ":" ++ JSON_stringify x
         | (k, x) :: rest => json_quote k ++ ":" ++ JSON_stringify x ++ "," ++ members rest
         end) props
      ++ "}"
  end.

(** ** The interfaces of [types.ts] *)

(** [apiKey] is declared a [string]; a caller without one passes
    [undefined] (the documented use reads it from [process.env]). *)
Record CultureCodedConfig : Type := {
  apiKey : option string;
  baseUrl : option string
}.

Inductive DesignType : Type :=
| landing_page | mobile_app | dashboard | ecommerce
| social_media | email | advertisement | other.

Record AnalyzeDesignOptions : Type := {
  imageUrl : option string;
  imageBase64 : option string;
  targetRegion : string;
  targetCountry : string;
  ethnicGroup : option string;
  designType : DesignType;
  industry : option string;
  additionalContext : option string
}.

Inductive ExportFormat : Type := pdf | csv | figma.

Record ExportOptions : Type := {
  analysisId : string;
  format : ExportFormat;
  figmaFileKey : option string
}.

Definition DesignType_literal (d : DesignType) : string :=
  match d with
  | landing_page => "landing_page"
  | mobile_app => "mobile_app"
  | dashboard => "dashboard"
  | ecommerce => "ecommerce"
  | social_media => "social_media"
  | email => "email"
  | advertisement => "advertisement"
  | other => "other"
  end.

Definition ExportFormat_literal (f : ExportFormat) : string :=
  match f with
  | pdf => "pdf"
  | csv => "csv"
  | figma => "figma"
  end.

(** The object a record stands for, as [JSON.stringify] sees it: a property
    that is [undefined] is left out.  The properties come in the order of
    the interface, which is also the order of the object literal in
    [exportToFigma]; an object a caller builds in another order, or with
    members the interface does not name, is serialised in its own order and
    with those members, which a record does not tell. *)
Definition optional (name : string) (v : option string) : list (string * Json) :=
  match v with
  | Some s => [(name, JString s)]
  | None => []
  end.

Definition AnalyzeDesignOptions_object (o : AnalyzeDesignOptions) : Json :=
  JObject
    (optional "imageUrl" (imageUrl o) ++
     optional "imageBase64" (imageBase64 o) ++
     [("targetRegion", JString (targetRegion o));
      ("targetCountry", JString (targetCountry o))] ++
     optional "ethnicGroup" (ethnicGroup o) ++
     [("designType", JString (DesignType_literal (designType o)))] ++
     optional "industry" (industry o) ++
     optional "additionalContext" (additionalContext o)).

Definition ExportOptions_object (o : ExportOptions) : Json :=
  JObject
    ([("analysisId", JString (analysisId o));
      ("format", JString (ExportFormat_literal (format o)))] ++
     optional "figmaFileKey" (figmaFileKey o)).

(** [!s] for a string that may be [undefined]. *)
Definition is_falsy (s : option string) : bool :=
  match s with
  | Some v => (v =? "")%string
  | None => true
  end.

(** ** [fetch] and the monad of the methods *)

Inductive Method : Type := GET | POST | DELETE | PATCH.

(** The two arguments of a call of [fetch]. *)
Record HttpRequest : Type := {
  req_url : string;
  req_method : Method;
  req_headers : list (string * string);
  req_body : option string
}.

(** What the client looks at in a [Response]: [status], and what
    [response.json()] settles to, [None] when the body is not JSON. *)
Record Response : Type := {
  response_status : N;
  response_json : option Json
}.

Inductive FetchOutcome : Type :=
| Fulfilled (response : Response)
| Rejected (reason : string).

Definition Fetch : Type := HttpRequest -> FetchOutcome.

(** A computation: given the environment, the calls of [fetch] it made and
    how it ended. *)
Definition M (A : Type) : Type := Fetch -> list HttpRequest * (Thrown + A).

Definition ret {A} (a : A) : M A := fun _ => ([], inr a).

Definition throw {A} (e : Thrown) : M A := fun _ => ([], inl e).

Definition bind {A B} (c : M A) (k : A -> M B) : M B :=
  fun net =>
    match c net with
    | (t, inl e) => (t, inl e)
    | (t, inr a) => let (t', r) := k a net in ((t ++ t')%list, r)
    end.

Definition lift {A} (r : Thrown + A) : M A := fun _ => ([], r).

Definition fetch (rq : HttpRequest) : M Response :=
  fun net =>
    ([rq], match net rq with
           | Fulfilled response => inr response
           | Rejected reason => inl (FetchRejected reason)
           end).

Notation "x <- c ;; k" := (bind c (fun x => k))
  (at level 61, c at next level, right associativity).

Definition calls {A} (r : list HttpRequest * (Thrown + A)) : list HttpRequest := fst r.
Definition outcome {A} (r : list HttpRequest * (Thrown + A)) : Thrown + A := snd r.

(** [response.ok] *)
Definition ok (response : Response) : bool :=
  (200 <=? response_status response) && (response_status response <=? 299).

(** [response.json()] *)
Definition json (response : Response) : Thrown + Json :=
  match response_json response with
  | Some v => inr v
  | None => inl SyntaxError
  end.

(** [p.catch(() => v)] *)
Definition catch {A} (p : Thrown + A) (v : A) : A :=
  match p with
  | inr a => a
  | inl _ => v
  end.

(** [new Error(m)] *)
Definition new_Error (m : Json) : Thrown + ErrorObject :=
  match js_ToString m with
  | Some s => inr (mkError s None None)
  | None => inl TypeError
  end.

(** ** The class [CultureCoded] of [client.ts] *)

Record CultureCoded : Type := {
  this_apiKey : string;
  this_baseUrl : string
}.

Definition plain_error (m : string) : Thrown := Error (mkError m None None).

Definition default_baseUrl : string := "https://culturecoded.replit.app".

(** [constructor(config)] *)
Definition new_CultureCoded (config : CultureCodedConfig) : M CultureCoded :=
  match apiKey config with
  | Some key =>
      if (key =? "")%string
      then throw (plain_error "API key is required. Get one at https://culturecoded.io/api-docs")
      else ret {| this_apiKey := key;
                  this_baseUrl := match baseUrl config with
                                  | Some u => if (u =? "")%string then default_baseUrl else u
                                  | None => default_baseUrl
                                  end |}
  | None => throw (plain_error "API key is required. Get one at https://culturecoded.io/api-docs")
  end.

Definition sends_body (method : Method) : bool :=
  match method with
  | POST | PATCH => true
  | GET | DELETE => false
  end.

(** [request<T>(method, path, body?)]; the result is [None] for
    [undefined]. *)
Definition request (this : CultureCoded) (method : Method) (path : string)
    (body : option Json) : M (option Json) :=
  let url := this_baseUrl this ++ path in
  let headers :=
    [("x-api-key", this_apiKey this);
     ("Content-Type", "application/json");
     ("User-Agent", "culturecoded-sdk-js/1.0.0")] in
  let options_body :=
    match body with
    | Some b => if truthy b && sends_body method then Some (JSON_stringify b) else None
    | None => None
    end in
  response <- fetch {| req_url := url; req_method := method;
                       req_headers := headers; req_body := options_body |} ;;
  if negb (ok response) then
    let errorData := catch (json response) (JObject []) in
    m <- lift (get_member errorData "message") ;;
    error <- lift (new_Error
                     (or_else m (JString ("Request failed with status "
                                          ++ decimal (response_status response))))) ;;
    c <- lift (get_member errorData "code") ;;
    throw (Error {| message := message error;
                    status := Some (response_status response);
                    code := c |})
  else if response_status response =? 204 then ret None
  else
    v <- lift (json response) ;;
    ret (Some v).

Definition analyzeDesign (this : CultureCoded) (options : AnalyzeDesignOptions)
    : M (option Json) :=
  if is_falsy (imageUrl options) && is_falsy (imageBase64 options)
  then throw (plain_error "Either imageUrl or imageBase64 is required")
  else request this POST "/api/v1/analyze" (Some (AnalyzeDesignOptions_object options)).

Definition getAnalyses (this : CultureCoded) : M (option Json) :=
  request this GET "/api/v1/analyses" None.

Definition getAnalysis (this : CultureCoded) (id : string) : M (option Json) :=
  request this GET ("/api/v1/analyses/" ++ id) None.

Definition deleteAnalysis (this : CultureCoded) (id : string) : M unit :=
  _ <- request this DELETE ("/api/v1/analyses/" ++ id) None ;;
  ret tt.

Definition getEthnicGroups (this : CultureCoded) (country : string) : M (option Json) :=
  match encodeURIComponent country with
  | Some segment => request this GET ("/api/v1/ethnic-groups/" ++ segment) None
  | None => throw URIError
  end.

Definition getRegions (this : CultureCoded) : M (option Json) :=
  request this GET "/api/v1/regions" None.

Definition exportAnalysis (this : CultureCoded) (options : ExportOptions)
    : M (option Json) :=
  if match format options with figma => true | _ => false end
     && is_falsy (figmaFileKey options)
  then throw (plain_error "figmaFileKey is required for Figma exports")
  else request this POST "/api/v1/exports" (Some (ExportOptions_object options)).

Definition exportToFigma (this : CultureCoded) (analysisId figmaFileKey : string)
    : M (option Json) :=
  exportAnalysis this
    {| analysisId := analysisId; format := figma; figmaFileKey := Some figmaFileKey |}.

Definition getExports (this : CultureCoded) : M (option Json) :=
  request this GET "/api/v1/exports" None.

Definition getUser (this : CultureCoded) : M (option Json) :=
  request this GET "/api/v1/user" None.

Definition getUsage (this : CultureCoded) : M (option Json) :=
  request this GET "/api/v1/stats" None.

(** ** The operations as one type, to speak of all of them *)

Inductive Operation : Type :=
| AnalyzeDesign (options : AnalyzeDesignOptions)
| GetAnalyses
| GetAnalysis (id : string)
| DeleteAnalysis (id : string)
| GetEthnicGroups (country : string)
| GetRegions
| ExportAnalysis (options : ExportOptions)
| ExportToFigma (analysisId figmaFileKey : string)
| GetExports
| GetUser
| GetUsage.

(** The call of a method; what [deleteAnalysis] resolves to is
    [undefined]. *)
Definition invoke (this : CultureCoded) (op : Operation) : M (option Json) :=
  match op with
  | AnalyzeDesign options => analyzeDesign this options
  | GetAnalyses => getAnalyses this
  | GetAnalysis id => getAnalysis this id
  | DeleteAnalysis id => _ <- deleteAnalysis this id ;; ret None
  | GetEthnicGroups country => getEthnicGroups this country
  | GetRegions => getRegions this
  | ExportAnalysis options => exportAnalysis this options
  | ExportToFigma id key => exportToFigma this id key
  | GetExports => getExports this
  | GetUser => getUser this
  | GetUsage => getUsage this
  end.

(** ** What the specification speaks of *)

(** The arguments [request] passes to [fetch]. *)
Definition sent_request (this : CultureCoded) (method : Method) (path : string)
    (body : option string) : HttpRequest :=
  {| req_url := this_baseUrl this ++ path;
     req_method := method;
     req_headers := [("x-api-key", this_apiKey this);
                     ("Content-Type", "application/json");
                     ("User-Agent", "culturecoded-sdk-js/1.0.0")];
     req_body := body |}.

(** The body [request] attaches: the JSON text of its third argument, when
    there is one and the method is POST or PATCH. *)
Definition sent_body (method : Method) (body : option Json) : option string :=
  match body with
  | Some b => if truthy b && sends_body method then Some (JSON_stringify b) else None
  | None => None
  end.

(** The table of operations: method, path and typed input object. *)
Definition operation_method (op : Operation) : Method :=
  match op with
  | AnalyzeDesign _ | ExportAnalysis _ | ExportToFigma _ _ => POST
  | DeleteAnalysis _ => DELETE
  | _ => GET
  end.

Definition operation_path (op : Operation) : option string :=
  match op with
  | AnalyzeDesign _ => Some "/api/v1/analyze"
  | GetAnalyses => Some "/api/v1/analyses"
  | GetAnalysis id | DeleteAnalysis id => Some ("/api/v1/analyses/" ++ id)
  | GetEthnicGroups country =>
      option_map (append "/api/v1/ethnic-groups/") (encodeURIComponent country)
  | GetRegions => Some "/api/v1/regions"
  | ExportAnalysis _ | ExportToFigma _ _ | GetExports => Some "/api/v1/exports"
  | GetUser => Some "/api/v1/user"
  | GetUsage => Some "/api/v1/stats"
  end.

Definition operation_input (op : Operation) : option Json :=
  match op with
  | AnalyzeDesign options => Some (AnalyzeDesignOptions_object options)
  | ExportAnalysis options => Some (ExportOptions_object options)
  | ExportToFigma id key =>
      Some (ExportOptions_object
              {| analysisId := id; format := figma; figmaFileKey := Some key |})
  | _ => None
  end.

(** The operation gets as far as calling [fetch]. *)
Definition reaches_fetch (op : Operation) : bool :=
  match op with
  | AnalyzeDesign options =>
      negb (is_falsy (imageUrl options) && is_falsy (imageBase64 options))
  | ExportAnalysis options =>
      negb (match format options with figma => true | _ => false end
            && is_falsy (figmaFileKey options))
  | ExportToFigma _ key => negb (key =? "")%string
  | GetEthnicGroups country =>
      match encodeURIComponent country with Some _ => true | None => false end
  | _ => true
  end.

(** A property is present when it is not [undefined]. *)
Definition present (s : option string) : bool :=
  match s with
  | Some _ => true
  | None => false
  end.

(** The message of the error raised for a response that carries none. *)
Definition fallback_message (n : N) : string :=
  "Request failed with status " ++ decimal n.

(** The environment that answers every request with the same response. *)
Definition answering (n : N) (body : option Json) : Fetch :=
  fun _ => Fulfilled {| response_status := n; response_json := body |}.

(** A string some surrogate of which stands alone: not the encoding of any
    sequence of Unicode characters. *)
Fixpoint has_lone_surrogate (s : string) : bool :=
  match s with
  | EmptyString => false
  | String a rest => lone_surrogate a rest || has_lone_surrogate rest
  end.

Definition hex_value (a : ascii) : option N :=
  let n := N_of_ascii a in
  if byte_in 48 57 a then Some (n - 48)
  else if byte_in 65 70 a then Some (n - 55)
  else if byte_in 97 102 a then Some (n - 87)
  else None.

(** Reading a path segment back: every [%XX] is the byte it stands for.
    This is the inverse a server applies; it is not part of the client. *)
Fixpoint percent_decode (s : string) : option string :=
  match s with
  | EmptyString => Some ""
  | String a rest =>
      if (N_of_ascii a =? 37) then
        match rest with
        | String h (String l rest') =>
            match hex_value h, hex_value l with
            | Some x, Some y =>
                option_map (String (ascii_of_N (16 * x + y))) (percent_decode rest')
            | _, _ => None
            end
        | _ => None
        end
      else option_map (String a) (percent_decode rest)
  end.

(** A percent-escaped path segment: unreserved characters and [%XX] escapes
    with upper-case digits, nothing else. *)
Fixpoint escaped_segment (s : string) : bool :=
  match s with
  | EmptyString => true
  | String a rest =>
      if (N_of_ascii a =? 37) then
        match rest with
        | String h (String l rest') =>
            (byte_in 48 57 h || byte_in 65 70 h) &&
            (byte_in 48 57 l || byte_in 65 70 l) && escaped_segment rest'
        | _ => false
        end
      else uri_unreserved a && escaped_segment rest
  end.

Fixpoint occurs (a : ascii) (s : string) : bool :=
  match s with
  | EmptyString => false
  | String b rest => (N_of_ascii a =? N_of_ascii b) || occurs a rest
  end.

(** A property that is [undefined] or the empty string: what [!s] tests. *)
Definition absent_or_empty (s : option string) : Prop := s = None \/ s = Some "".

(** ** Concrete inputs *)

Definition example_client : CultureCoded :=
  {| this_apiKey := "key"; this_baseUrl := "https://api.example" |}.

Definition options_without_image : AnalyzeDesignOptions :=
  {| imageUrl := None; imageBase64 := None;
     targetRegion := "Africa"; targetCountry := "Nigeria"; ethnicGroup := Some "Yoruba";
     designType := landing_page; industry := Some "fintech"; additionalContext := None |}.

Definition options_with_both_images : AnalyzeDesignOptions :=
  {| imageUrl := Some "https://example.com/design.png"; imageBase64 := Some "iVBORw0KGgo=";
     targetRegion := "Africa"; targetCountry := "Nigeria"; ethnicGroup := None;
     designType := mobile_app; industry := None; additionalContext := None |}.

Definition options_with_url : AnalyzeDesignOptions :=
  {| imageUrl := Some "https://example.com/design.png"; imageBase64 := None;
     targetRegion := "Africa"; targetCountry := "Nigeria"; ethnicGroup := None;
     designType := dashboard; industry := None; additionalContext := None |}.

(** The string of the one code unit U+D800. *)
Definition high_surrogate_alone : string :=
  String (ascii_of_N 237) (String (ascii_of_N 160) (String (ascii_of_N 128) "")).

(** A string of characters [encodeURIComponent] leaves alone. *)
Fixpoint all_unreserved (s : string) : bool :=
  match s with
  | EmptyString => true
  | String a rest => uri_unreserved a && all_unreserved rest
  end.

(** A string of ASCII characters. *)
Fixpoint all_ascii (s : string) : bool :=
  match s with
  | EmptyString => true
  | String a rest => (N_of_ascii a <? 128) && all_ascii rest
  end.


(** ** Running a computation *)

Ltac run :=
  unfold calls, outcome, request, bind, fetch, lift, throw, ret; cbn [fst snd].

Ltac each_byte a := destruct a as [[|] [|] [|] [|] [|] [|] [|] [|]].

Lemma request_calls (this : CultureCoded) (method : Method) (path : string)
    (body : option Json) (net : Fetch) :
  calls (request this method path body net) =
  [sent_request this method path
     (sent_body method body)].
Proof.
  run. unfold sent_request, sent_body.
  match goal with |- context [net ?r] => destruct (net r) as [response | reason] end;
    cbn; [| reflexivity].
  destruct (ok response); cbn.
  - destruct (response_status response =? 204); cbn; [reflexivity |].
    destruct (json response); reflexivity.
  - destruct (get_member _ "message") as [e | m]; cbn; [reflexivity |].
    destruct (new_Error _); cbn; [reflexivity |].
    destruct (get_member _ "code"); reflexivity.
Qed.

Section Request.

Variables (this : CultureCoded) (method : Method) (path : string)
          (body : option Json) (net : Fetch).

Variable response : Response.
Hypothesis answered :
  net (sent_request this method path (sent_body method body)) = Fulfilled response.

Local Ltac use_answer :=
  match goal with
  | |- context [net ?r] =>
      change (net r) with (net (sent_request this method path (sent_body method body)))
  end;
  rewrite answered; cbn.

Lemma request_no_content :
  response_status response = 204 ->
  outcome (request this method path body net) = inr None.
Proof.
  intros H204. run. use_answer.
  unfold ok. rewrite H204. reflexivity.
Qed.

Lemma request_not_json :
  ok response = true ->
  response_status response <> 204 ->
  response_json response = None ->
  outcome (request this method path body net) = inl SyntaxError.
Proof.
  intros Hok Hn Hj. run. use_answer.
  rewrite Hok. cbn.
  apply N.eqb_neq in Hn. rewrite Hn.
  unfold json. rewrite Hj. reflexivity.
Qed.

Lemma request_remote_error (m : string) :
  ok response = false ->
  response_json response <> Some JNull ->
  js_ToString
    (or_else (member (catch (json response) (JObject [])) "message")
             (JString (fallback_message (response_status response)))) = Some m ->
  outcome (request this method path body net) =
  inl (Error {| message := m;
                status := Some (response_status response);
                code := member (catch (json response) (JObject [])) "code" |}).
Proof.
  intros Hok Hnull Hm. run. use_answer.
  rewrite Hok. cbn.
  unfold fallback_message in Hm.
  assert (Hg : forall name,
             get_member (catch (json response) (JObject [])) name =
             inr (member (catch (json response) (JObject [])) name)).
  { intros name. unfold json in *.
    destruct (response_json response) as [[] |]; cbn; try reflexivity.
    now elim Hnull. }
  rewrite !Hg. cbn. unfold new_Error. cbn in Hm. rewrite Hm. reflexivity.
Qed.

Lemma request_null_body :
  ok response = false ->
  response_json response = Some JNull ->
  outcome (request this method path body net) = inl TypeError.
Proof.
  intros Hok Hnull. run. use_answer.
  rewrite Hok. cbn. unfold json. rewrite Hnull. reflexivity.
Qed.

End Request.

#[local] Arguments request : simpl never.

(** Every operation either stops before [fetch] or is one call of
    [request], with the method, path and input of the table. *)
Lemma invoke_request (this : CultureCoded) (op : Operation) (net : Fetch) :
  reaches_fetch op = true ->
  exists path,
    operation_path op = Some path /\
    calls (invoke this op net) =
    calls (request this (operation_method op) path (operation_input op) net) /\
    forall r : Thrown + option Json,
      (r = inr None \/ exists e, r = inl e) ->
      outcome (request this (operation_method op) path (operation_input op) net) = r ->
      outcome (invoke this op net) = r.
Proof.
  intros Hreach.
  destruct op as [o | | id | id | country | | o | id key | | |]; cbn in Hreach |- *;
    try (eexists; split; [reflexivity |]; split; [reflexivity |]; intros r _ H; exact H).
  - (* analyzeDesign *)
    unfold analyzeDesign. apply negb_true_iff in Hreach. rewrite Hreach.
    eexists; split; [reflexivity |]; split; [reflexivity |]; intros r _ H; exact H.
  - (* deleteAnalysis *)
    eexists; split; [reflexivity |].
    unfold deleteAnalysis, bind, ret, calls, outcome. cbn.
    match goal with
    | |- context [request this DELETE ?p None net] =>
        destruct (request this DELETE p None net) as [t [e | v]]
    end; cbn; split; try reflexivity.
    + intros r _ H; exact H.
    + now rewrite !app_nil_r.
    + intros r [-> | [e ->]] H; [reflexivity | discriminate H].
  - (* getEthnicGroups *)
    unfold getEthnicGroups.
    destruct (encodeURIComponent country) as [segment |]; [| discriminate Hreach].
    eexists; split; [reflexivity |]; split; [reflexivity |]; intros r _ H; exact H.
  - (* exportAnalysis *)
    unfold exportAnalysis. apply negb_true_iff in Hreach. rewrite Hreach.
    eexists; split; [reflexivity |]; split; [reflexivity |]; intros r _ H; exact H.
  - (* exportToFigma *)
    unfold exportToFigma, exportAnalysis. cbn. apply negb_true_iff in Hreach. rewrite Hreach.
    eexists; split; [reflexivity |]; split; [reflexivity |]; intros r _ H; exact H.
Qed.

Lemma invoke_stopped (this : CultureCoded) (op : Operation) (net : Fetch) :
  reaches_fetch op = false ->
  calls (invoke this op net) = [] /\ exists e, outcome (invoke this op net) = inl e.
Proof.
  intros Hstop.
  destruct op as [o | | id | id | country | | o | id key | | |]; cbn in Hstop |- *;
    try discriminate Hstop.
  - unfold analyzeDesign. apply negb_false_iff in Hstop. rewrite Hstop.
    split; [reflexivity | eexists; reflexivity].
  - unfold getEthnicGroups. destruct (encodeURIComponent country); [discriminate Hstop |].
    split; [reflexivity | eexists; reflexivity].
  - unfold exportAnalysis. apply negb_false_iff in Hstop. rewrite Hstop.
    split; [reflexivity | eexists; reflexivity].
  - unfold exportToFigma, exportAnalysis. cbn. apply negb_false_iff in Hstop. rewrite Hstop.
    split; [reflexivity | eexists; reflexivity].
Qed.

Lemma input_is_sent (op : Operation) :
  sent_body (operation_method op) (operation_input op) =
  option_map JSON_stringify (operation_input op).
Proof. destruct op; reflexivity. Qed.

(** The request an operation that issued one was answered for. *)
Lemma invoke_sent (this : CultureCoded) (op : Operation) (net : Fetch) (rq : HttpRequest) :
  calls (invoke this op net) = [rq] ->
  exists path,
    operation_path op = Some path /\
    rq = sent_request this (operation_method op) path
           (option_map JSON_stringify (operation_input op)) /\
    forall r : Thrown + option Json,
      (r = inr None \/ exists e, r = inl e) ->
      outcome (request this (operation_method op) path (operation_input op) net) = r ->
      outcome (invoke this op net) = r.
Proof.
  intros Hcalls.
  destruct (reaches_fetch op) eqn:Hreach.
  - destruct (invoke_request this op net Hreach) as (path & Hpath & Hc & Hout).
    exists path. split; [exact Hpath |]. split; [| exact Hout].
    rewrite Hc, request_calls, input_is_sent in Hcalls.
    now injection Hcalls as <-.
  - destruct (invoke_stopped this op net Hreach) as [Hnil _].
    rewrite Hnil in Hcalls. discriminate Hcalls.
Qed.

(** ** [encodeURIComponent]: escapes, segments and reading back *)

Lemma unreserved_not_percent (a : ascii) :
  uri_unreserved a = true -> (N_of_ascii a =? 37) = false.
Proof. each_byte a; intros H; solve [reflexivity | discriminate H]. Qed.

Lemma unreserved_not_separator (a : ascii) :
  uri_unreserved a = true ->
  (N_of_ascii "/" =? N_of_ascii a) = false /\
  (N_of_ascii "?" =? N_of_ascii a) = false /\
  (N_of_ascii "#" =? N_of_ascii a) = false.
Proof. each_byte a; intros H; solve [repeat split | discriminate H]. Qed.

Lemma hex_not_separator (a : ascii) :
  byte_in 48 57 a || byte_in 65 70 a = true ->
  (N_of_ascii "/" =? N_of_ascii a) = false /\
  (N_of_ascii "?" =? N_of_ascii a) = false /\
  (N_of_ascii "#" =? N_of_ascii a) = false.
Proof. each_byte a; intros H; solve [repeat split | discriminate H]. Qed.

Lemma decode_escape (a : ascii) (rest : string) :
  percent_decode (percent_escape a ++ rest) = option_map (String a) (percent_decode rest).
Proof. each_byte a; reflexivity. Qed.

Lemma segment_escape (a : ascii) (rest : string) :
  escaped_segment (percent_escape a ++ rest) = escaped_segment rest.
Proof. each_byte a; reflexivity. Qed.

Lemma lone_surrogate_reserved (a : ascii) (rest : string) :
  lone_surrogate a rest = true -> uri_unreserved a = false.
Proof.
  destruct rest as [| b rest]; cbn; [discriminate |].
  intros H. apply andb_true_iff in H as [H _]. apply N.eqb_eq in H.
  revert H. each_byte a; intros H; solve [reflexivity | discriminate H].
Qed.

Lemma encode_throws_iff (s : string) :
  encodeURIComponent s = None <-> has_lone_surrogate s = true.
Proof.
  induction s as [| a rest IH]; cbn.
  - split; discriminate.
  - destruct (lone_surrogate a rest) eqn:Hl; cbn.
    + rewrite (lone_surrogate_reserved a rest Hl). split; reflexivity.
    + rewrite <- IH.
      destruct (uri_unreserved a), (encodeURIComponent rest); cbn;
        split; intros H; solve [reflexivity | discriminate H].
Qed.

Lemma encode_round_trip (s segment : string) :
  encodeURIComponent s = Some segment -> percent_decode segment = Some s.
Proof.
  revert segment. induction s as [| a rest IH]; cbn [encodeURIComponent];
    intros segment H.
  - now injection H as <-.
  - destruct (uri_unreserved a) eqn:Hu.
    + destruct (encodeURIComponent rest) as [seg' |]; [| discriminate H].
      injection H as <-. cbn [percent_decode].
      rewrite (unreserved_not_percent a Hu), (IH seg' eq_refl). reflexivity.
    + destruct (lone_surrogate a rest); [discriminate H |].
      destruct (encodeURIComponent rest) as [seg' |]; [| discriminate H].
      injection H as <-.
      change (percent_decode (percent_escape a ++ seg') = Some (String a rest)).
      rewrite decode_escape, (IH seg' eq_refl). reflexivity.
Qed.

Lemma encode_is_segment (s segment : string) :
  encodeURIComponent s = Some segment -> escaped_segment segment = true.
Proof.
  revert segment. induction s as [| a rest IH]; cbn [encodeURIComponent];
    intros segment H.
  - now injection H as <-.
  - destruct (uri_unreserved a) eqn:Hu.
    + destruct (encodeURIComponent rest) as [seg' |]; [| discriminate H].
      injection H as <-. cbn [escaped_segment].
      rewrite (unreserved_not_percent a Hu), Hu, (IH seg' eq_refl). reflexivity.
    + destruct (lone_surrogate a rest); [discriminate H |].
      destruct (encodeURIComponent rest) as [seg' |]; [| discriminate H].
      injection H as <-.
      change (escaped_segment (percent_escape a ++ seg') = true).
      rewrite segment_escape. exact (IH seg' eq_refl).
Qed.

Lemma segment_has_no_separator (n : nat) (segment : string) :
  (String.length segment <= n)%nat ->
  escaped_segment segment = true ->
  occurs "/" segment = false /\ occurs "?" segment = false /\ occurs "#" segment = false.
Proof.
  revert segment. induction n as [| n IH]; intros segment Hlen Hseg.
  - destruct segment; [repeat split | cbn in Hlen; lia].
  - destruct segment as [| a rest]; [repeat split |].
    cbn [escaped_segment] in Hseg.
    destruct (N_of_ascii a =? 37) eqn:Hp.
    + destruct rest as [| h [| l rest']]; try discriminate Hseg.
      apply andb_true_iff in Hseg as [Hseg Hrest].
      apply andb_true_iff in Hseg as [Hh Hl].
      apply N.eqb_eq in Hp.
      destruct (hex_not_separator h Hh) as (h1 & h2 & h3).
      destruct (hex_not_separator l Hl) as (l1 & l2 & l3).
      destruct (IH rest') as (r1 & r2 & r3); [cbn in Hlen; lia | exact Hrest |].
      cbn [occurs]. rewrite h1, h2, h3, l1, l2, l3, r1, r2, r3, Hp.
      repeat split.
    + apply andb_true_iff in Hseg as [Hu Hrest].
      destruct (unreserved_not_separator a Hu) as (a1 & a2 & a3).
      destruct (IH rest) as (r1 & r2 & r3); [cbn in Hlen; lia | exact Hrest |].
      cbn [occurs]. rewrite a1, a2, a3, r1, r2, r3.
      repeat split.
Qed.

(** ** Construction *)

(** C3: constructing the client without an API key ([undefined], and the
    empty string as well) fails with the error "API key is required ..." and
    without any call of [fetch]; constructing it with a non-empty API key
    succeeds, again without any call of [fetch], and the client holds that
    key. *)
Theorem constructor_requires_apiKey (config : CultureCodedConfig) (net : Fetch) :
  (absent_or_empty (apiKey config) ->
   new_CultureCoded config net =
   ([], inl (plain_error "API key is required. Get one at https://culturecoded.io/api-docs")))
  /\
  (forall key, apiKey config = Some key -> key <> "" ->
   exists this, new_CultureCoded config net = ([], inr this) /\ this_apiKey this = key).
Proof.
  unfold new_CultureCoded. split.
  - intros [H | H]; rewrite H; reflexivity.
  - intros key H Hne. rewrite H.
    apply String.eqb_neq in Hne. rewrite Hne.
    eexists. split; reflexivity.
Qed.

Lemma constructor_requires_apiKey_witness :
  new_CultureCoded {| apiKey := None; baseUrl := None |} (answering 200 None) =
  ([], inl (plain_error "API key is required. Get one at https://culturecoded.io/api-docs"))
  /\
  exists this,
    new_CultureCoded {| apiKey := Some "key"; baseUrl := None |} (answering 200 None) =
    ([], inr this) /\ this_apiKey this = "key".
Proof.
  split.
  - apply (proj1 (constructor_requires_apiKey
                    {| apiKey := None; baseUrl := None |} (answering 200 None))).
    left. reflexivity.
  - apply (proj2 (constructor_requires_apiKey
                    {| apiKey := Some "key"; baseUrl := None |} (answering 200 None)) "key").
    + reflexivity.
    + discriminate.
Defined.

(** The URL of a request is the client's base URL and then the path of the
    operation. *)
Lemma request_url (this : CultureCoded) (op : Operation) (net : Fetch) (rq : HttpRequest) :
  calls (invoke this op net) = [rq] ->
  exists path, operation_path op = Some path /\ req_url rq = this_baseUrl this ++ path.
Proof.
  intros H. destruct (invoke_sent this op net rq H) as (path & Hpath & -> & _).
  exists path. split; [exact Hpath | reflexivity].
Qed.

(** C4, as stated, fails for the empty string: a caller who supplies it as
    base URL gets requests to the default endpoint, not to the path alone. *)
Lemma empty_baseUrl_not_verbatim :
  ~ (forall this net,
       new_CultureCoded {| apiKey := Some "key"; baseUrl := Some "" |} net = ([], inr this) ->
       forall op rq path,
         calls (invoke this op net) = [rq] ->
         operation_path op = Some path ->
         req_url rq = "" ++ path).
Proof.
  intros H.
  specialize (H {| this_apiKey := "key"; this_baseUrl := default_baseUrl |}
                (answering 200 None) eq_refl GetRegions
                (sent_request {| this_apiKey := "key"; this_baseUrl := default_baseUrl |}
                   GET "/api/v1/regions" None)
                "/api/v1/regions" eq_refl eq_refl).
  discriminate H.
Qed.

(** C4, amended: when no base URL is supplied, or the empty string is, the
    client uses ["https://culturecoded.replit.app"]; a base URL that is not
    empty is used as it is: the URL of every request is that string
    followed by the path of the operation, with nothing added, removed or
    changed. *)
Theorem baseUrl_default_or_verbatim (config : CultureCodedConfig) (net : Fetch)
    (this : CultureCoded) :
  new_CultureCoded config net = ([], inr this) ->
  (absent_or_empty (baseUrl config) ->
   this_baseUrl this = "https://culturecoded.replit.app" /\
   forall op net' rq,
     calls (invoke this op net') = [rq] ->
     exists path, operation_path op = Some path /\
                  req_url rq = "https://culturecoded.replit.app" ++ path)
  /\
  (forall supplied, baseUrl config = Some supplied -> supplied <> "" ->
   this_baseUrl this = supplied /\
   forall op net' rq,
     calls (invoke this op net') = [rq] ->
     exists path, operation_path op = Some path /\ req_url rq = supplied ++ path).
Proof.
  unfold new_CultureCoded. intros Hnew.
  destruct (apiKey config) as [key |]; [| discriminate Hnew].
  destruct (key =? "")%string; [discriminate Hnew |].
  injection Hnew as <-.
  split.
  - intros Habsent.
    assert (Hbase : match baseUrl config with
                    | Some u => if (u =? "")%string then default_baseUrl else u
                    | None => default_baseUrl
                    end = "https://culturecoded.replit.app")
      by (destruct Habsent as [-> | ->]; reflexivity).
    split; [exact Hbase |].
    intros op net' rq Hcalls.
    destruct (request_url _ op net' rq Hcalls) as (path & Hpath & Hurl).
    exists path. split; [exact Hpath |].
    rewrite Hurl. cbn [this_baseUrl]. now rewrite Hbase.
  - intros supplied Hsup Hne.
    apply String.eqb_neq in Hne.
    assert (Hbase : match baseUrl config with
                    | Some u => if (u =? "")%string then default_baseUrl else u
                    | None => default_baseUrl
                    end = supplied)
      by (rewrite Hsup, Hne; reflexivity).
    split; [exact Hbase |].
    intros op net' rq Hcalls.
    destruct (request_url _ op net' rq Hcalls) as (path & Hpath & Hurl).
    exists path. split; [exact Hpath |].
    rewrite Hurl. cbn [this_baseUrl]. now rewrite Hbase.
Qed.

Lemma baseUrl_default_or_verbatim_witness :
  this_baseUrl {| this_apiKey := "key"; this_baseUrl := "https://staging.example/" |} =
  "https://staging.example/" /\
  exists path,
    operation_path GetUser = Some path /\
    req_url (sent_request
               {| this_apiKey := "key"; this_baseUrl := "https://staging.example/" |}
               GET "/api/v1/user" None) = "https://staging.example/" ++ path.
Proof.
  destruct (proj2 (baseUrl_default_or_verbatim
                     {| apiKey := Some "key"; baseUrl := Some "https://staging.example/" |}
                     (answering 200 None)
                     {| this_apiKey := "key"; this_baseUrl := "https://staging.example/" |}
                     eq_refl)
              "https://staging.example/" eq_refl) as [Hbase Hurl].
  - discriminate.
  - split; [exact Hbase |].
    exact (Hurl GetUser (answering 200 (Some JNull)) _ eq_refl).
Defined.

(** ** Checks made before the network *)

Lemma is_falsy_spec (s : option string) : is_falsy s = true <-> absent_or_empty s.
Proof.
  unfold absent_or_empty. destruct s as [v |]; cbn.
  - rewrite String.eqb_eq. split.
    + intros ->. now right.
    + intros [H | H]; [discriminate H | now injection H].
  - split; [now left | reflexivity].
Qed.

(** C2, as stated, fails when both forms are given: then it is not the case
    that exactly one is present, and yet the call is not refused but sent. *)
Lemma analyzeDesign_accepts_both_images :
  xorb (present (imageUrl options_with_both_images))
       (present (imageBase64 options_with_both_images)) = false /\
  ~ (calls (analyzeDesign example_client options_with_both_images (answering 200 None)) = []
     /\ outcome (analyzeDesign example_client options_with_both_images (answering 200 None)) =
        inl (plain_error "Either imageUrl or imageBase64 is required")).
Proof.
  split; [reflexivity |].
  intros [H _]. discriminate H.
Qed.

(** C2, amended: [analyzeDesign] fails with the error "Either imageUrl or
    imageBase64 is required", before any call of [fetch], if and only if
    neither [imageUrl] nor [imageBase64] is a non-empty string; in
    particular when both are missing.  In every other case, also when both
    are given, it issues one POST request whose body is the options. *)
Theorem analyzeDesign_requires_image (this : CultureCoded)
    (options : AnalyzeDesignOptions) (net : Fetch) :
  (analyzeDesign this options net =
   ([], inl (plain_error "Either imageUrl or imageBase64 is required"))
   <-> absent_or_empty (imageUrl options) /\ absent_or_empty (imageBase64 options))
  /\
  (imageUrl options = None -> imageBase64 options = None ->
   analyzeDesign this options net =
   ([], inl (plain_error "Either imageUrl or imageBase64 is required")))
  /\
  (~ (absent_or_empty (imageUrl options) /\ absent_or_empty (imageBase64 options)) ->
   calls (analyzeDesign this options net) =
   [sent_request this POST "/api/v1/analyze"
      (Some (JSON_stringify (AnalyzeDesignOptions_object options)))]).
Proof.
  assert (Hcond : is_falsy (imageUrl options) && is_falsy (imageBase64 options) = true
                  <-> absent_or_empty (imageUrl options) /\
                      absent_or_empty (imageBase64 options))
    by (rewrite andb_true_iff, !is_falsy_spec; reflexivity).
  unfold analyzeDesign.
  destruct (is_falsy (imageUrl options) && is_falsy (imageBase64 options)).
  - repeat split; try reflexivity; try (now apply Hcond).
    intros Hn. elim Hn. now apply Hcond.
  - assert (Hcalls : calls (request this POST "/api/v1/analyze"
                              (Some (AnalyzeDesignOptions_object options)) net) =
                     [sent_request this POST "/api/v1/analyze"
                        (Some (JSON_stringify (AnalyzeDesignOptions_object options)))])
      by (rewrite request_calls; reflexivity).
    split; [split |].
    + intros H. apply (f_equal fst) in H. fold (calls (request this POST "/api/v1/analyze"
                              (Some (AnalyzeDesignOptions_object options)) net)) in H.
      rewrite Hcalls in H. discriminate H.
    + intros H. apply Hcond in H. discriminate H.
    + split; [| intros _; exact Hcalls].
      intros Hu Hb.
      assert (H : false = true)
        by (apply Hcond; unfold absent_or_empty; rewrite Hu, Hb; split; now left).
      discriminate H.
Qed.

Lemma analyzeDesign_requires_image_witness :
  analyzeDesign example_client options_without_image (answering 200 None) =
  ([], inl (plain_error "Either imageUrl or imageBase64 is required"))
  /\
  calls (analyzeDesign example_client options_with_url (answering 200 None)) =
  [sent_request example_client POST "/api/v1/analyze"
     (Some (JSON_stringify (AnalyzeDesignOptions_object options_with_url)))].
Proof.
  split.
  - apply (proj1 (proj2 (analyzeDesign_requires_image
                           example_client options_without_image (answering 200 None))));
      reflexivity.
  - apply (proj2 (proj2 (analyzeDesign_requires_image
                           example_client options_with_url (answering 200 None)))).
    intros [[H | H] _]; discriminate H.
Defined.

(** C5, as stated, fails for a Figma export whose file key is the empty
    string: a file key is supplied, and the call is refused all the same. *)
Lemma exportAnalysis_refuses_empty_key :
  let options := {| analysisId := "abc123"; format := figma; figmaFileKey := Some "" |} in
  ~ (exportAnalysis example_client options (answering 200 None) =
     ([], inl (plain_error "figmaFileKey is required for Figma exports"))
     <-> format options = figma /\ present (figmaFileKey options) = false).
Proof.
  cbn. intros [H _].
  destruct (H eq_refl) as [_ Hp]. discriminate Hp.
Qed.

(** C5, amended: [exportAnalysis] fails with the error "figmaFileKey is
    required for Figma exports", before any call of [fetch], if and only if
    the format is [figma] and the file key is missing or the empty string;
    an export to [pdf] or [csv] never needs the file key and issues its
    request. *)
Theorem exportAnalysis_requires_key_for_figma (this : CultureCoded)
    (options : ExportOptions) (net : Fetch) :
  (exportAnalysis this options net =
   ([], inl (plain_error "figmaFileKey is required for Figma exports"))
   <-> format options = figma /\ absent_or_empty (figmaFileKey options))
  /\
  (format options <> figma ->
   calls (exportAnalysis this options net) =
   [sent_request this POST "/api/v1/exports"
      (Some (JSON_stringify (ExportOptions_object options)))]).
Proof.
  assert (Hcalls : calls (request this POST "/api/v1/exports"
                            (Some (ExportOptions_object options)) net) =
                   [sent_request this POST "/api/v1/exports"
                      (Some (JSON_stringify (ExportOptions_object options)))])
    by (rewrite request_calls; reflexivity).
  assert (Hsent : request this POST "/api/v1/exports"
                    (Some (ExportOptions_object options)) net <>
                  ([], inl (plain_error "figmaFileKey is required for Figma exports"))).
  { intros H. apply (f_equal fst) in H.
    fold (calls (request this POST "/api/v1/exports"
                   (Some (ExportOptions_object options)) net)) in H.
    rewrite Hcalls in H. discriminate H. }
  unfold exportAnalysis.
  destruct (format options) eqn:Hf; cbn [andb].
  - split; [split |].
    + intros H. now elim Hsent.
    + intros [H _]. discriminate H.
    + intros _. exact Hcalls.
  - split; [split |].
    + intros H. now elim Hsent.
    + intros [H _]. discriminate H.
    + intros _. exact Hcalls.
  - destruct (is_falsy (figmaFileKey options)) eqn:Hk.
    + split; [split |].
      * intros _. split; [reflexivity | now apply is_falsy_spec].
      * reflexivity.
      * intros H. now elim H.
    + split; [split |].
      * intros H. now elim Hsent.
      * intros [_ H]. apply is_falsy_spec in H. rewrite H in Hk. discriminate Hk.
      * intros H. now elim H.
Qed.

Lemma exportAnalysis_requires_key_for_figma_witness :
  calls (exportAnalysis example_client
           {| analysisId := "abc123"; format := pdf; figmaFileKey := None |}
           (answering 200 None)) =
  [sent_request example_client POST "/api/v1/exports"
     (Some (JSON_stringify
              (ExportOptions_object
                 {| analysisId := "abc123"; format := pdf; figmaFileKey := None |})))].
Proof.
  apply (proj2 (exportAnalysis_requires_key_for_figma example_client
                  {| analysisId := "abc123"; format := pdf; figmaFileKey := None |}
                  (answering 200 None))).
  discriminate.
Defined.

(** C6: [exportToFigma(id, key)] does what [exportAnalysis] does on the
    options with that id, the format [figma] and that key: the same calls of
    [fetch] (same URL, method, headers and body) and the same result,
    whatever the environment answers. *)
Theorem exportToFigma_is_exportAnalysis (this : CultureCoded)
    (id key : string) (net : Fetch) :
  calls (exportToFigma this id key net) =
  calls (exportAnalysis this
           {| analysisId := id; format := figma; figmaFileKey := Some key |} net)
  /\
  outcome (exportToFigma this id key net) =
  outcome (exportAnalysis this
             {| analysisId := id; format := figma; figmaFileKey := Some key |} net).
Proof. split; reflexivity. Qed.

(** The request both issue when the key is not empty. *)
Lemma exportToFigma_request (this : CultureCoded) (id key : string) (net : Fetch) :
  key <> "" ->
  calls (exportToFigma this id key net) =
  [sent_request this POST "/api/v1/exports"
     (Some (JSON_stringify
              (JObject [("analysisId", JString id);
                        ("format", JString "figma");
                        ("figmaFileKey", JString key)])))].
Proof.
  intros Hne. apply String.eqb_neq in Hne.
  unfold exportToFigma, exportAnalysis. cbn. rewrite Hne.
  rewrite request_calls. reflexivity.
Qed.

(** ** Responses *)

(** What an operation that issued a request makes of the response, as far
    as it is an error or [undefined]. *)
Lemma invoke_answered (this : CultureCoded) (op : Operation) (net : Fetch)
    (rq : HttpRequest) (response : Response) :
  calls (invoke this op net) = [rq] ->
  net rq = Fulfilled response ->
  exists method path body,
    net (sent_request this method path (sent_body method body)) = Fulfilled response /\
    forall r : Thrown + option Json,
      (r = inr None \/ exists e, r = inl e) ->
      outcome (request this method path body net) = r ->
      outcome (invoke this op net) = r.
Proof.
  intros Hcalls Hnet.
  destruct (invoke_sent this op net rq Hcalls) as (path & _ & -> & Hout).
  exists (operation_method op), path, (operation_input op).
  rewrite input_is_sent. split; [exact Hnet | exact Hout].
Qed.

(** C7: when the response to the request of an operation has status 204,
    the operation resolves to [undefined]; it raises no error and does not
    look at the body.  So does [deleteAnalysis], whose result is no value. *)
Theorem no_content_resolves (this : CultureCoded) (op : Operation) (net : Fetch)
    (rq : HttpRequest) (response : Response) :
  calls (invoke this op net) = [rq] ->
  net rq = Fulfilled response ->
  response_status response = 204 ->
  outcome (invoke this op net) = inr None /\
  forall id, op = DeleteAnalysis id -> outcome (deleteAnalysis this id net) = inr tt.
Proof.
  intros Hcalls Hnet H204.
  destruct (invoke_answered this op net rq response Hcalls Hnet)
    as (method & path & body & Hsent & Hout).
  pose proof (request_no_content this method path body net response Hsent H204) as Hreq.
  assert (Hinv : outcome (invoke this op net) = inr None)
    by (apply Hout; [now left | exact Hreq]).
  split; [exact Hinv |].
  intros id ->. cbn [invoke] in Hinv.
  unfold bind, ret, outcome in Hinv |- *.
  destruct (deleteAnalysis this id net) as [t [e | []]]; cbn in Hinv |- *;
    [discriminate Hinv | reflexivity].
Qed.

Lemma no_content_resolves_witness :
  outcome (invoke example_client (DeleteAnalysis "abc123") (answering 204 None)) = inr None /\
  outcome (deleteAnalysis example_client "abc123" (answering 204 None)) = inr tt.
Proof.
  destruct (no_content_resolves example_client (DeleteAnalysis "abc123")
              (answering 204 None)
              (sent_request example_client DELETE "/api/v1/analyses/abc123" None)
              {| response_status := 204; response_json := None |}
              eq_refl eq_refl eq_refl) as [Hundefined Hdelete].
  split; [exact Hundefined | exact (Hdelete "abc123" eq_refl)].
Defined.

(** C10: when the response to the request of an operation has a 2xx status
    other than 204 and a body that is not JSON, the operation fails with the
    parse failure of [response.json()] itself, which is not the error with
    a status that the client builds for the other statuses. *)
Theorem success_body_not_json (this : CultureCoded) (op : Operation) (net : Fetch)
    (rq : HttpRequest) (response : Response) :
  calls (invoke this op net) = [rq] ->
  net rq = Fulfilled response ->
  200 <= response_status response <= 299 ->
  response_status response <> 204 ->
  response_json response = None ->
  outcome (invoke this op net) = inl SyntaxError /\
  forall e, outcome (invoke this op net) <> inl (Error e).
Proof.
  intros Hcalls Hnet [Hlo Hhi] Hn Hbody.
  destruct (invoke_answered this op net rq response Hcalls Hnet)
    as (method & path & body & Hsent & Hout).
  assert (Hok : ok response = true)
    by (unfold ok; apply andb_true_iff; split; now apply N.leb_le).
  pose proof (request_not_json this method path body net response Hsent Hok Hn Hbody)
    as Hreq.
  assert (Hinv : outcome (invoke this op net) = inl SyntaxError)
    by (apply Hout; [right; now eexists | exact Hreq]).
  split; [exact Hinv |].
  intros e. rewrite Hinv. discriminate.
Qed.

Lemma success_body_not_json_witness :
  outcome (invoke example_client GetAnalyses (answering 200 None)) = inl SyntaxError /\
  forall e, outcome (invoke example_client GetAnalyses (answering 200 None)) <> inl (Error e).
Proof.
  apply (success_body_not_json example_client GetAnalyses (answering 200 None)
           (sent_request example_client GET "/api/v1/analyses" None)
           {| response_status := 200; response_json := None |}
           eq_refl eq_refl).
  - cbn. lia.
  - discriminate.
  - reflexivity.
Defined.

(** C1, as stated, fails for an error body whose message is the empty
    string: the error raised does not carry the message of the body but the
    fallback. *)
Lemma remote_error_ignores_empty_message :
  let data := JObject [("message", JString ""); ("code", JString "E_UPSTREAM")] in
  member data "message" = Some (JString "") /\
  ~ exists e,
      outcome (invoke example_client GetRegions (answering 500 (Some data))) = inl (Error e)
      /\ message e = "".
Proof.
  cbn. split; [reflexivity |].
  intros (e & H & Hm).
  injection H as <-. discriminate Hm.
Qed.

(** A body that is the JSON value [null] makes the client fail while it
    reads the message: the caller gets a [TypeError], without status. *)
Lemma remote_error_null_body (this : CultureCoded) (op : Operation) (net : Fetch)
    (rq : HttpRequest) (response : Response) :
  calls (invoke this op net) = [rq] ->
  net rq = Fulfilled response ->
  ok response = false ->
  response_json response = Some JNull ->
  outcome (invoke this op net) = inl TypeError.
Proof.
  intros Hcalls Hnet Hok Hnull.
  destruct (invoke_answered this op net rq response Hcalls Hnet)
    as (method & path & body & Hsent & Hout).
  apply Hout; [right; now eexists |].
  exact (request_null_body this method path body net response Hsent Hok Hnull).
Qed.

(** C1, amended: for every response to the request of an operation whose
    status is not 2xx and whose body is not JSON, or is a JSON value other
    than [null] whose [message] member is missing, falsy, or a truthy value
    that converts to a string (every non-empty string, every number other
    than zero and [true] do), the operation raises an error that carries
    the status of the response and the [code] member of the body
    ([undefined] when there is none).  Its message is the [message] member
    converted to a string, when that member is truthy (a non-empty string is
    taken as it is); it is "Request failed with status N" when the body is
    not JSON or its [message] member is missing or falsy (such as the empty
    string).  Nothing is said of a body that is [null], nor of a truthy
    [message] that is an array or an object without conversion to a
    string. *)
Theorem remote_error_raised (this : CultureCoded) (op : Operation) (net : Fetch)
    (rq : HttpRequest) (response : Response) :
  calls (invoke this op net) = [rq] ->
  net rq = Fulfilled response ->
  ok response = false ->
  (response_json response = None ->
   outcome (invoke this op net) =
   inl (Error {| message := fallback_message (response_status response);
                 status := Some (response_status response);
                 code := None |}))
  /\
  (forall data, response_json response = Some data -> data <> JNull ->
     (forall v m,
        member data "message" = Some v -> truthy v = true -> js_ToString v = Some m ->
        outcome (invoke this op net) =
        inl (Error {| message := m;
                      status := Some (response_status response);
                      code := member data "code" |}))
     /\
     (forall s,
        member data "message" = Some (JString s) -> s <> "" ->
        outcome (invoke this op net) =
        inl (Error {| message := s;
                      status := Some (response_status response);
                      code := member data "code" |}))
     /\
     (forall repr,
        member data "message" = Some (JNumber repr) -> repr <> "0" ->
        outcome (invoke this op net) =
        inl (Error {| message := repr;
                      status := Some (response_status response);
                      code := member data "code" |}))
     /\
     (member data "message" = Some (JBool true) ->
      outcome (invoke this op net) =
      inl (Error {| message := "true";
                    status := Some (response_status response);
                    code := member data "code" |}))
     /\
     (member data "message" = None \/
      (exists v, member data "message" = Some v /\ truthy v = false) ->
      outcome (invoke this op net) =
      inl (Error {| message := fallback_message (response_status response);
                    status := Some (response_status response);
                    code := member data "code" |}))).
Proof.
  intros Hcalls Hnet Hok.
  destruct (invoke_answered this op net rq response Hcalls Hnet)
    as (method & path & body & Hsent & Hout).
  pose proof (fun m => request_remote_error this method path body net response Hsent m Hok)
    as Hreq.
  split.
  - intros Hnone. apply Hout; [right; now eexists |].
    specialize (Hreq (fallback_message (response_status response))).
    unfold json in Hreq. rewrite Hnone in Hreq. cbn in Hreq.
    apply Hreq; [discriminate | reflexivity].
  - intros data Hdata Hnonnull.
    assert (Hgen : forall v m,
               member data "message" = Some v -> truthy v = true ->
               js_ToString v = Some m ->
               outcome (invoke this op net) =
               inl (Error {| message := m;
                             status := Some (response_status response);
                             code := member data "code" |})).
    { intros v m Hv Ht Hs. apply Hout; [right; now eexists |].
      specialize (Hreq m). unfold json in Hreq. rewrite Hdata in Hreq.
      cbn [catch] in Hreq. apply Hreq.
      - intros H. injection H as H. contradiction.
      - rewrite Hv. unfold or_else. rewrite Ht. exact Hs. }
    split; [exact Hgen |]. split.
    + intros s Hs Hne. apply (Hgen (JString s) s Hs); [| reflexivity].
      cbn. apply String.eqb_neq in Hne. now rewrite Hne.
    + split; [| split].
      { intros repr Hr Hne. apply (Hgen (JNumber repr) repr Hr); [| reflexivity].
        cbn. apply String.eqb_neq in Hne. now rewrite Hne. }
      { intros Hb. apply (Hgen (JBool true) "true" Hb); reflexivity. }
      intros Hfalsy. apply Hout; [right; now eexists |].
      specialize (Hreq (fallback_message (response_status response))).
      unfold json in Hreq. rewrite Hdata in Hreq. cbn [catch] in Hreq. apply Hreq.
      * intros H. injection H as H. contradiction.
      * destruct Hfalsy as [Hm | (v & Hm & Hf)]; rewrite Hm; unfold or_else;
          [| rewrite Hf]; reflexivity.
Qed.

Lemma remote_error_raised_witness :
  outcome (invoke example_client GetUser (answering 502 None)) =
  inl (Error {| message := "Request failed with status 502";
                status := Some 502; code := None |})
  /\
  outcome (invoke example_client GetUser
             (answering 402 (Some (JObject [("message", JString "Insufficient credits");
                                            ("code", JString "NO_CREDITS")])))) =
  inl (Error {| message := "Insufficient credits";
                status := Some 402; code := Some (JString "NO_CREDITS") |}).
Proof.
  split.
  - apply (proj1 (remote_error_raised example_client GetUser (answering 502 None)
                    (sent_request example_client GET "/api/v1/user" None)
                    {| response_status := 502; response_json := None |}
                    eq_refl eq_refl eq_refl)).
    reflexivity.
  - refine (proj1 (proj2 (proj2 (remote_error_raised example_client GetUser
                      (answering 402 (Some (JObject [("message", JString "Insufficient credits");
                                                     ("code", JString "NO_CREDITS")])))
                      (sent_request example_client GET "/api/v1/user" None)
                      {| response_status := 402;
                         response_json :=
                           Some (JObject [("message", JString "Insufficient credits");
                                          ("code", JString "NO_CREDITS")]) |}
                      eq_refl eq_refl eq_refl)
                    (JObject [("message", JString "Insufficient credits");
                              ("code", JString "NO_CREDITS")])
                    eq_refl _))
              "Insufficient credits" eq_refl _); discriminate.
Defined.

(** ** Paths and requests *)

(** C8, as stated, fails for a country string that holds a surrogate
    standing alone: [encodeURIComponent] throws, and no request is made at
    all. *)
Lemma getEthnicGroups_lone_surrogate :
  ~ exists segment,
      calls (getEthnicGroups example_client high_surrogate_alone (answering 200 None)) =
      [sent_request example_client GET ("/api/v1/ethnic-groups/" ++ segment) None].
Proof. intros (segment & H). discriminate H. Qed.

(** What the call does then. *)
Lemma getEthnicGroups_throws_URIError :
  getEthnicGroups example_client high_surrogate_alone (answering 200 None) =
  ([], inl URIError).
Proof. reflexivity. Qed.

(** C8, amended: for every country string in which no surrogate stands
    alone, [getEthnicGroups] issues one GET request whose path is
    [/api/v1/ethnic-groups/] followed by one segment: the country with every
    byte other than letters, digits and [- _ . ! ~ * ' ( )] written as
    [%XX].  The segment holds no [/], [?] or [#], and unescaping it gives
    the country back. *)
Theorem getEthnicGroups_escapes_country (this : CultureCoded) (country : string)
    (net : Fetch) :
  has_lone_surrogate country = false ->
  exists segment,
    encodeURIComponent country = Some segment /\
    calls (getEthnicGroups this country net) =
    [sent_request this GET ("/api/v1/ethnic-groups/" ++ segment) None] /\
    escaped_segment segment = true /\
    (occurs "/" segment = false /\ occurs "?" segment = false /\ occurs "#" segment = false) /\
    percent_decode segment = Some country.
Proof.
  intros Hwf.
  destruct (encodeURIComponent country) as [segment |] eqn:Henc.
  - exists segment. split; [reflexivity |].
    split.
    { unfold getEthnicGroups. rewrite Henc. now rewrite request_calls. }
    pose proof (encode_is_segment country segment Henc) as Hseg.
    split; [exact Hseg |].
    split; [| exact (encode_round_trip country segment Henc)].
    exact (segment_has_no_separator (String.length segment) segment (le_n _) Hseg).
  - apply encode_throws_iff in Henc. rewrite Henc in Hwf. discriminate Hwf.
Qed.

Lemma getEthnicGroups_escapes_country_witness :
  exists segment,
    encodeURIComponent "Cote d'Ivoire/West" = Some segment /\
    calls (getEthnicGroups example_client "Cote d'Ivoire/West" (answering 200 None)) =
    [sent_request example_client GET ("/api/v1/ethnic-groups/" ++ segment) None] /\
    escaped_segment segment = true /\
    (occurs "/" segment = false /\ occurs "?" segment = false /\ occurs "#" segment = false) /\
    percent_decode segment = Some "Cote d'Ivoire/West".
Proof.
  apply (getEthnicGroups_escapes_country example_client "Cote d'Ivoire/West"
           (answering 200 None)).
  reflexivity.
Defined.

Example JSON_stringify_figma_options :
  JSON_stringify
    (ExportOptions_object
       {| analysisId := "abc123"; format := figma; figmaFileKey := Some "k\1" |}) =
  "{" ++ json_quote "analysisId" ++ ":" ++ json_quote "abc123" ++ ","
      ++ json_quote "format" ++ ":" ++ json_quote "figma" ++ ","
      ++ json_quote "figmaFileKey" ++ ":" ++ String dquote ("k\\1" ++ String dquote "")
      ++ "}".
Proof. reflexivity. Qed.

Example encodeURIComponent_space_and_slash :
  encodeURIComponent "Cote d'Ivoire/West" = Some "Cote%20d'Ivoire%2FWest".
Proof. reflexivity. Qed.

(** The calls that stop before [fetch]. *)
Lemma refused_before_fetch (op : Operation) :
  reaches_fetch op = false <->
  (exists options, op = AnalyzeDesign options /\
                   absent_or_empty (imageUrl options) /\
                   absent_or_empty (imageBase64 options)) \/
  (exists options, op = ExportAnalysis options /\
                   format options = figma /\ absent_or_empty (figmaFileKey options)) \/
  (exists id, op = ExportToFigma id "") \/
  (exists country, op = GetEthnicGroups country /\ has_lone_surrogate country = true).
Proof.
  split.
  - destruct op as [o | | id | id | country | | o | id key | | |]; cbn;
      intros H; try discriminate H.
    + left. exists o. split; [reflexivity |].
      apply negb_false_iff, andb_true_iff in H. now rewrite <- !is_falsy_spec.
    + right; right; right. exists country. split; [reflexivity |].
      apply encode_throws_iff. now destruct (encodeURIComponent country).
    + right; left. exists o. split; [reflexivity |].
      apply negb_false_iff, andb_true_iff in H as [Hf Hk].
      split; [now destruct (format o) | now apply is_falsy_spec].
    + right; right; left. exists id.
      apply negb_false_iff, String.eqb_eq in H. now subst key.
  - intros [(o & -> & Hu & Hb) | [(o & -> & Hf & Hk) | [(id & ->) | (country & -> & Hs)]]];
      cbn.
    + apply is_falsy_spec in Hu, Hb. now rewrite Hu, Hb.
    + apply is_falsy_spec in Hk. now rewrite Hf, Hk.
    + reflexivity.
    + apply encode_throws_iff in Hs. now rewrite Hs.
Qed.

(** C9, as stated, fails for a call that is refused before the network: it
    issues no request. *)
Lemma analyzeDesign_without_image_sends_nothing :
  ~ exists rq,
      calls (invoke example_client (AnalyzeDesign options_without_image)
               (answering 200 None)) = [rq].
Proof. intros (rq & H). discriminate H. Qed.

(** C9, amended: every operation issues at most one HTTP request: none when
    it is refused before the network ([analyzeDesign] without a non-empty
    image reference, an export to Figma without a non-empty file key,
    [getEthnicGroups] on a string with a lone surrogate), exactly one
    otherwise.  The URL of the request is the base URL of the client
    followed by the path of the operation; its headers are [x-api-key] with
    the key of the client, [Content-Type: application/json] and
    [User-Agent: culturecoded-sdk-js/1.0.0]; it has a body, the JSON text of
    the input object, exactly when the operation has one ([analyzeDesign],
    [exportAnalysis], [exportToFigma]). *)
Theorem one_request_per_operation (this : CultureCoded) (op : Operation) (net : Fetch) :
  (reaches_fetch op = false /\ calls (invoke this op net) = [])
  \/
  (reaches_fetch op = true /\
   exists path,
     operation_path op = Some path /\
     calls (invoke this op net) =
     [{| req_url := this_baseUrl this ++ path;
         req_method := operation_method op;
         req_headers := [("x-api-key", this_apiKey this);
                         ("Content-Type", "application/json");
                         ("User-Agent", "culturecoded-sdk-js/1.0.0")];
         req_body := option_map JSON_stringify (operation_input op) |}]).
Proof.
  destruct (reaches_fetch op) eqn:Hreach.
  - right. split; [reflexivity |].
    destruct (invoke_request this op net Hreach) as (path & Hpath & Hcalls & _).
    exists path. split; [exact Hpath |].
    rewrite Hcalls, request_calls, input_is_sent. reflexivity.
  - left. split; [reflexivity |].
    exact (proj1 (invoke_stopped this op net Hreach)).
Qed.

(** * Further properties of the client *)

(** ** How [request] settles *)

(** Every way [request] can end, by what [fetch] settled to. *)
Lemma request_settles (this : CultureCoded) (method : Method) (path : string)
    (body : option Json) (net : Fetch) :
  match net (sent_request this method path (sent_body method body)) with
  | Rejected reason =>
      outcome (request this method path body net) = inl (FetchRejected reason)
  | Fulfilled response =>
      if ok response then
        if response_status response =? 204
        then outcome (request this method path body net) = inr None
        else outcome (request this method path body net) =
             match response_json response with
             | Some v => inr (Some v)
             | None => inl SyntaxError
             end
      else
        outcome (request this method path body net) = inl TypeError \/
        exists m,
          outcome (request this method path body net) =
          inl (Error {| message := m;
                        status := Some (response_status response);
                        code := member (catch (json response) (JObject [])) "code" |})
  end.
Proof.
  run. unfold sent_request, sent_body.
  match goal with |- context [net ?r] => destruct (net r) as [response | reason] end;
    cbn; [| reflexivity].
  destruct (ok response); cbn.
  - destruct (response_status response =? 204); cbn; [reflexivity |].
    unfold json. destruct (response_json response); reflexivity.
  - unfold json. destruct (response_json response) as [data |]; cbn.
    + destruct data; cbn; try (now left); try (right; eexists; reflexivity).
      unfold new_Error.
      match goal with
      | |- context [js_ToString ?v] => destruct (js_ToString v) as [m |]
      end; cbn; [right; eexists; reflexivity | now left].
    + right. eexists. reflexivity.
Qed.

(** What an operation that reaches [fetch] resolves or rejects with: what
    its call of [request] does, except that [deleteAnalysis] drops the
    value. *)
Lemma invoke_outcome (this : CultureCoded) (op : Operation) (net : Fetch) :
  reaches_fetch op = true ->
  exists path,
    operation_path op = Some path /\
    calls (invoke this op net) =
    [sent_request this (operation_method op) path
       (sent_body (operation_method op) (operation_input op))] /\
    outcome (invoke this op net) =
    match outcome (request this (operation_method op) path (operation_input op) net) with
    | inl e => inl e
    | inr v => inr (match op with DeleteAnalysis _ => None | _ => v end)
    end.
Proof.
  intros Hreach.
  assert (Hsame : forall x : Thrown + option Json,
             x = match x with inl e => inl e | inr v => inr v end)
    by (now intros [e | v]).
  destruct op as [o | | id | id | country | | o | id key | | |]; cbn in Hreach |- *;
    try (eexists; split; [reflexivity |]; split;
         [apply request_calls | apply Hsame]).
  - unfold analyzeDesign. apply negb_true_iff in Hreach. rewrite Hreach.
    eexists; split; [reflexivity |]; split; [apply request_calls | apply Hsame].
  - eexists; split; [reflexivity |].
    pose proof (request_calls this DELETE ("/api/v1/analyses/" ++ id) None net) as Hc.
    unfold deleteAnalysis, bind, ret, calls, outcome in Hc |- *. cbn in Hc |- *.
    revert Hc.
    match goal with
    | |- context [request this DELETE ?p None net] =>
        destruct (request this DELETE p None net) as [t [e | v]]
    end; cbn; intros ->; split; reflexivity.
  - unfold getEthnicGroups.
    destruct (encodeURIComponent country) as [segment |]; [| discriminate Hreach].
    eexists; split; [reflexivity |]; split; [apply request_calls | apply Hsame].
  - unfold exportAnalysis. apply negb_true_iff in Hreach. rewrite Hreach.
    eexists; split; [reflexivity |]; split; [apply request_calls | apply Hsame].
  - unfold exportToFigma, exportAnalysis. cbn. apply negb_true_iff in Hreach. rewrite Hreach.
    eexists; split; [reflexivity |]; split; [apply request_calls | apply Hsame].
Qed.

(** The same, for an operation known to have issued the request [rq]. *)
Lemma invoke_settles (this : CultureCoded) (op : Operation) (net : Fetch)
    (rq : HttpRequest) :
  calls (invoke this op net) = [rq] ->
  exists method path body,
    rq = sent_request this method path (sent_body method body) /\
    outcome (invoke this op net) =
    match outcome (request this method path body net) with
    | inl e => inl e
    | inr v => inr (match op with DeleteAnalysis _ => None | _ => v end)
    end.
Proof.
  intros Hcalls.
  destruct (reaches_fetch op) eqn:Hreach.
  - destruct (invoke_outcome this op net Hreach) as (path & _ & Hc & Hout).
    exists (operation_method op), path, (operation_input op).
    rewrite Hc in Hcalls. injection Hcalls as <-.
    split; [reflexivity | exact Hout].
  - destruct (invoke_stopped this op net Hreach) as [Hnil _].
    rewrite Hnil in Hcalls. discriminate Hcalls.
Qed.

(** ** What the caller gets *)

(** X1: a rejection of [fetch] (a network failure) is what the operation
    rejects with, unchanged: the client neither wraps it nor tries again. *)
Theorem transport_failure_passed_on (this : CultureCoded) (op : Operation) (net : Fetch)
    (rq : HttpRequest) (reason : string) :
  calls (invoke this op net) = [rq] ->
  net rq = Rejected reason ->
  outcome (invoke this op net) = inl (FetchRejected reason).
Proof.
  intros Hcalls Hnet.
  destruct (invoke_settles this op net rq Hcalls) as (method & path & body & -> & Hout).
  pose proof (request_settles this method path body net) as Hreq.
  rewrite Hnet in Hreq. rewrite Hout, Hreq. reflexivity.
Qed.

Lemma transport_failure_passed_on_witness :
  outcome (invoke example_client (GetAnalysis "abc123") (fun _ => Rejected "ECONNREFUSED")) =
  inl (FetchRejected "ECONNREFUSED").
Proof.
  apply (transport_failure_passed_on example_client (GetAnalysis "abc123")
           (fun _ => Rejected "ECONNREFUSED")
           (sent_request example_client GET "/api/v1/analyses/abc123" None)
           "ECONNREFUSED"); reflexivity.
Defined.

(** X2: when the response has a 2xx status other than 204 and a JSON body,
    the operation resolves to the parsed body as it is, whatever its shape;
    [deleteAnalysis] resolves to no value. *)
Theorem success_returns_body (this : CultureCoded) (op : Operation) (net : Fetch)
    (rq : HttpRequest) (response : Response) (v : Json) :
  calls (invoke this op net) = [rq] ->
  net rq = Fulfilled response ->
  200 <= response_status response <= 299 ->
  response_status response <> 204 ->
  response_json response = Some v ->
  outcome (invoke this op net) =
  inr (match op with DeleteAnalysis _ => None | _ => Some v end) /\
  forall id, op = DeleteAnalysis id -> outcome (deleteAnalysis this id net) = inr tt.
Proof.
  intros Hcalls Hnet [Hlo Hhi] Hn Hbody.
  destruct (invoke_settles this op net rq Hcalls) as (method & path & body & -> & Hout).
  pose proof (request_settles this method path body net) as Hreq.
  rewrite Hnet in Hreq.
  assert (Hok : ok response = true)
    by (unfold ok; apply andb_true_iff; split; now apply N.leb_le).
  apply N.eqb_neq in Hn. rewrite Hok, Hn, Hbody in Hreq.
  rewrite Hreq in Hout.
  split; [exact Hout |].
  intros id ->. cbn [invoke] in Hout.
  unfold bind, ret, outcome in Hout |- *.
  destruct (deleteAnalysis this id net) as [t [e | []]]; cbn in Hout |- *;
    [discriminate Hout | reflexivity].
Qed.

Lemma success_returns_body_witness :
  outcome (invoke example_client GetRegions
             (answering 200 (Some (JObject [("Africa", JArray [JString "Nigeria"])])))) =
  inr (Some (JObject [("Africa", JArray [JString "Nigeria"])])).
Proof.
  apply (success_returns_body example_client GetRegions
           (answering 200 (Some (JObject [("Africa", JArray [JString "Nigeria"])])))
           (sent_request example_client GET "/api/v1/regions" None)
           {| response_status := 200;
              response_json := Some (JObject [("Africa", JArray [JString "Nigeria"])]) |}
           (JObject [("Africa", JArray [JString "Nigeria"])])
           eq_refl eq_refl).
  - cbn. lia.
  - discriminate.
  - reflexivity.
Defined.




(** What [request] does with a response that is not 2xx. *)
Lemma request_not_ok (this : CultureCoded) (method : Method) (path : string)
    (body : option Json) (net : Fetch) (response : Response) :
  net (sent_request this method path (sent_body method body)) = Fulfilled response ->
  ok response = false ->
  outcome (request this method path body net) =
  match response_json response with
  | Some JNull => inl TypeError
  | _ =>
      match js_ToString
              (or_else (member (catch (json response) (JObject [])) "message")
                       (JString (fallback_message (response_status response)))) with
      | Some m =>
          inl (Error {| message := m;
                        status := Some (response_status response);
                        code := member (catch (json response) (JObject [])) "code" |})
      | None => inl TypeError
      end
  end.
Proof.
  intros Hnet Hok.
  destruct (response_json response) as [data |] eqn:Hdata.
  - destruct (js_ToString _) as [m |] eqn:Hm.
    + destruct data;
        try (apply (request_remote_error this method path body net response Hnet m Hok);
             [rewrite Hdata; discriminate | exact Hm]).
      exact (request_null_body this method path body net response Hnet Hok Hdata).
    + destruct data;
        try (unfold json in Hm; rewrite Hdata in Hm; discriminate Hm).
      revert Hm. run. unfold sent_request, sent_body in Hnet. rewrite Hnet. cbn.
        rewrite Hok. cbn. unfold json. rewrite Hdata. cbn. unfold new_Error.
        intros Hm. cbn in Hm. now rewrite Hm.
  - rewrite (request_remote_error this method path body net response Hnet
               (fallback_message (response_status response)) Hok).
    + unfold json. rewrite Hdata. reflexivity.
    + rewrite Hdata. discriminate.
    + unfold json. rewrite Hdata. reflexivity.
Qed.

(** X4: for a response that is not 2xx, an operation rejects with a
    [TypeError], which has no status, exactly when the body is the JSON
    value [null], or when the [message] of the body is a truthy value that
    cannot be converted to a string (an object with a [toString] member of
    its own, or an array holding one). *)
Theorem remote_error_TypeError_iff (this : CultureCoded) (op : Operation) (net : Fetch)
    (rq : HttpRequest) (response : Response) :
  calls (invoke this op net) = [rq] ->
  net rq = Fulfilled response ->
  ok response = false ->
  (outcome (invoke this op net) = inl TypeError
   <->
   response_json response = Some JNull \/
   exists data v,
     response_json response = Some data /\
     member data "message" = Some v /\ truthy v = true /\ js_ToString v = None).
Proof.
  intros Hcalls Hnet Hok.
  destruct (invoke_settles this op net rq Hcalls) as (method & path & body & -> & Hout).
  assert (Hinv : outcome (invoke this op net) =
                 outcome (request this method path body net)).
  { rewrite Hout, (request_not_ok this method path body net response Hnet Hok).
    destruct (response_json response) as [[] |]; try reflexivity;
      destruct (js_ToString _); reflexivity. }
  rewrite Hinv, (request_not_ok this method path body net response Hnet Hok).
  unfold json.
  destruct (response_json response) as [data |]; cbn [catch].
  - assert (Hconv : forall d, d <> JNull -> data = d ->
               (match js_ToString (or_else (member d "message")
                                      (JString (fallback_message (response_status response))))
                with
                | Some m =>
                    inl (Error {| message := m;
                                  status := Some (response_status response);
                                  code := member d "code" |})
                | None => inl TypeError
                end = (inl TypeError : Thrown + option Json)
                <->
                Some d = Some JNull \/
                exists data' v,
                  Some d = Some data' /\
                  member data' "message" = Some v /\ truthy v = true /\
                  js_ToString v = None)).
    { intros d Hd _. unfold or_else.
      destruct (member d "message") as [v |] eqn:Hv.
      - destruct (truthy v) eqn:Ht.
        + destruct (js_ToString v) as [m |] eqn:Hs.
          * split; [discriminate |].
            intros [H | (d' & v' & H & Hv' & _ & Hs')].
            { injection H as H. contradiction. }
            { injection H as <-. rewrite Hv in Hv'. injection Hv' as <-.
              rewrite Hs in Hs'. discriminate Hs'. }
          * split; [| reflexivity].
            intros _. right. exists d, v. repeat split; assumption.
        + cbn. split; [discriminate |].
          intros [H | (d' & v' & H & Hv' & Ht' & _)].
          { injection H as H. contradiction. }
          { injection H as <-. rewrite Hv in Hv'. injection Hv' as <-.
            rewrite Ht in Ht'. discriminate Ht'. }
      - cbn. split; [discriminate |].
        intros [H | (d' & v' & H & Hv' & _)].
        { injection H as H. contradiction. }
        { injection H as <-. rewrite Hv in Hv'. discriminate Hv'. } }
    destruct data; cbv beta iota;
      try (match goal with
           | |- context [member ?d "message"] => apply (Hconv d); [discriminate | reflexivity]
           end).
    split; [now left | reflexivity].
  - cbn. split; [discriminate |].
    intros [H | (d & v & H & _)]; discriminate H.
Qed.

Lemma remote_error_TypeError_iff_witness :
  outcome (invoke example_client GetUser (answering 500 (Some JNull))) = inl TypeError
  <->
  Some JNull = Some JNull \/
  exists data v,
    Some JNull = Some data /\
    member data "message" = Some v /\ truthy v = true /\ js_ToString v = None.
Proof.
  apply (remote_error_TypeError_iff example_client GetUser (answering 500 (Some JNull))
           (sent_request example_client GET "/api/v1/user" None)
           {| response_status := 500; response_json := Some JNull |});
    reflexivity.
Defined.

Example message_with_own_toString :
  outcome (invoke example_client GetUser
             (answering 500 (Some (JObject [("message", JObject [("toString", JNull)])])))) =
  inl TypeError.
Proof. reflexivity. Qed.

(** ** The Figma shorthand *)

(** X5: [exportToFigma] with an empty file key is refused before the
    network, with the error of [exportAnalysis]; with any other key it
    issues one POST to [/api/v1/exports] whose body is the object of the
    analysis id, the format ["figma"] and the key, in this order. *)
Theorem exportToFigma_checks_key (this : CultureCoded) (id key : string) (net : Fetch) :
  (key = "" ->
   exportToFigma this id key net =
   ([], inl (plain_error "figmaFileKey is required for Figma exports")))
  /\
  (key <> "" ->
   calls (exportToFigma this id key net) =
   [sent_request this POST "/api/v1/exports"
      (Some (JSON_stringify
               (JObject [("analysisId", JString id);
                         ("format", JString "figma");
                         ("figmaFileKey", JString key)])))]).
Proof.
  split.
  - intros ->. reflexivity.
  - exact (exportToFigma_request this id key net).
Qed.

Lemma exportToFigma_checks_key_witness :
  exportToFigma example_client "abc123" "" (answering 200 None) =
  ([], inl (plain_error "figmaFileKey is required for Figma exports"))
  /\
  calls (exportToFigma example_client "abc123" "FiLeKeY" (answering 200 None)) =
  [sent_request example_client POST "/api/v1/exports"
     (Some (JSON_stringify
              (JObject [("analysisId", JString "abc123");
                        ("format", JString "figma");
                        ("figmaFileKey", JString "FiLeKeY")])))].
Proof.
  split.
  - apply (proj1 (exportToFigma_checks_key example_client "abc123" ""
                    (answering 200 None))).
    reflexivity.
  - apply (proj2 (exportToFigma_checks_key example_client "abc123" "FiLeKeY"
                    (answering 200 None))).
    discriminate.
Defined.

(** ** The client a constructor returns *)

(** X6: whenever the constructor returns a client, it made no call of
    [fetch], the client holds the API key of the configuration, and neither
    its key nor its base URL is empty: the base URL is the one of the
    configuration or else the default. *)
Theorem constructed_client_invariant (config : CultureCodedConfig) (net : Fetch)
    (t : list HttpRequest) (this : CultureCoded) :
  new_CultureCoded config net = (t, inr this) ->
  t = [] /\
  apiKey config = Some (this_apiKey this) /\
  this_apiKey this <> "" /\
  this_baseUrl this <> "" /\
  (baseUrl config = Some (this_baseUrl this) \/
   this_baseUrl this = "https://culturecoded.replit.app").
Proof.
  unfold new_CultureCoded. intros Hnew.
  destruct (apiKey config) as [key |]; [| discriminate Hnew].
  destruct (key =? "")%string eqn:Hkey; [discriminate Hnew |].
  injection Hnew as <- <-. cbn.
  apply String.eqb_neq in Hkey.
  repeat split; try assumption.
  - destruct (baseUrl config) as [u |]; [| discriminate].
    destruct (u =? "")%string eqn:Hu; [discriminate |].
    now apply String.eqb_neq in Hu.
  - destruct (baseUrl config) as [u |]; [| now right].
    destruct (u =? "")%string; [now right | now left].
Qed.

Lemma constructed_client_invariant_witness :
  apiKey {| apiKey := Some "key"; baseUrl := Some "" |} = Some "key" /\
  this_baseUrl {| this_apiKey := "key"; this_baseUrl := default_baseUrl |} <> "".
Proof.
  destruct (constructed_client_invariant
              {| apiKey := Some "key"; baseUrl := Some "" |} (answering 200 None)
              [] {| this_apiKey := "key"; this_baseUrl := default_baseUrl |} eq_refl)
    as (_ & Hkey & _ & Hbase & _).
  split; [exact Hkey | exact Hbase].
Defined.

(** X7: every request of a client that the constructor returned carries
    the API key of the configuration in its [x-api-key] header, next to the
    two fixed headers, whatever the operation. *)
Theorem constructed_client_sends_key (config : CultureCodedConfig) (net net' : Fetch)
    (t : list HttpRequest) (this : CultureCoded) (op : Operation) (rq : HttpRequest) :
  new_CultureCoded config net = (t, inr this) ->
  In rq (calls (invoke this op net')) ->
  exists key,
    apiKey config = Some key /\ key <> "" /\
    req_headers rq = [("x-api-key", key);
                      ("Content-Type", "application/json");
                      ("User-Agent", "culturecoded-sdk-js/1.0.0")].
Proof.
  intros Hnew Hin.
  exists (this_apiKey this).
  assert (Hkey : apiKey config = Some (this_apiKey this) /\ this_apiKey this <> "").
  { unfold new_CultureCoded in Hnew.
    destruct (apiKey config) as [key |]; [| discriminate Hnew].
    destruct (key =? "")%string eqn:Hk; [discriminate Hnew |].
    injection Hnew as _ <-. cbn. split; [reflexivity | now apply String.eqb_neq]. }
  destruct Hkey as [Hcfg Hne]. split; [exact Hcfg |]. split; [exact Hne |].
  destruct (reaches_fetch op) eqn:Hreach.
  - destruct (invoke_outcome this op net' Hreach) as (path & _ & Hcalls & _).
    rewrite Hcalls in Hin. destruct Hin as [<- | []]. reflexivity.
  - rewrite (proj1 (invoke_stopped this op net' Hreach)) in Hin. destruct Hin.
Qed.

Lemma constructed_client_sends_key_witness :
  exists key,
    apiKey {| apiKey := Some "cc_live_1"; baseUrl := None |} = Some key /\ key <> "" /\
    req_headers
      (sent_request {| this_apiKey := "cc_live_1"; this_baseUrl := default_baseUrl |}
         GET "/api/v1/stats" None) =
    [("x-api-key", key);
     ("Content-Type", "application/json");
     ("User-Agent", "culturecoded-sdk-js/1.0.0")].
Proof.
  apply (constructed_client_sends_key
           {| apiKey := Some "cc_live_1"; baseUrl := None |}
           (answering 200 None) (answering 200 None) []
           {| this_apiKey := "cc_live_1"; this_baseUrl := default_baseUrl |}
           GetUsage).
  - reflexivity.
  - left. reflexivity.
Defined.

(** ** Identifiers and country names in paths *)

Lemma append_cancel (p x y : string) : p ++ x = p ++ y -> x = y.
Proof.
  induction p as [| a p IH]; cbn; intros H; [exact H |].
  injection H as H. exact (IH H).
Qed.

Lemma escape_is_ascii (a : ascii) (rest : string) :
  all_ascii (percent_escape a ++ rest) = all_ascii rest.
Proof. each_byte a; reflexivity. Qed.

Lemma unreserved_is_ascii (a : ascii) :
  uri_unreserved a = true -> (N_of_ascii a <? 128) = true.
Proof. each_byte a; intros H; solve [reflexivity | discriminate H]. Qed.

Lemma escape_length (a : ascii) (rest : string) :
  String.length (percent_escape a ++ rest) = (3 + String.length rest)%nat.
Proof. reflexivity. Qed.

Lemma encode_bounds (s segment : string) :
  encodeURIComponent s = Some segment ->
  all_ascii segment = true /\
  (String.length s <= String.length segment <= 3 * String.length s)%nat.
Proof.
  revert segment. induction s as [| a rest IH]; cbn [encodeURIComponent];
    intros segment H.
  - injection H as <-. cbn. split; [reflexivity | lia].
  - destruct (uri_unreserved a) eqn:Hu.
    + destruct (encodeURIComponent rest) as [seg' |]; [| discriminate H].
      injection H as <-. destruct (IH seg' eq_refl) as [Ha Hl].
      cbn. rewrite (unreserved_is_ascii a Hu), Ha. split; [reflexivity | lia].
    + destruct (lone_surrogate a rest); [discriminate H |].
      destruct (encodeURIComponent rest) as [seg' |]; [| discriminate H].
      injection H as <-. destruct (IH seg' eq_refl) as [Ha Hl].
      change (all_ascii (percent_escape a ++ seg') = true /\
              (String.length (String a rest) <= String.length (percent_escape a ++ seg')
               <= 3 * String.length (String a rest))%nat).
      rewrite escape_is_ascii, escape_length. cbn [String.length].
      split; [exact Ha | lia].
Qed.

(** The strings the function gives back as they are. *)
Lemma encode_fixed_iff (s : string) :
  encodeURIComponent s = Some s <-> all_unreserved s = true.
Proof.
  induction s as [| a rest IH]; cbn [encodeURIComponent all_unreserved].
  - split; reflexivity.
  - destruct (uri_unreserved a) eqn:Hu; cbn [andb].
    + rewrite <- IH. destruct (encodeURIComponent rest) as [seg' |]; cbn.
      * split; intros H; injection H as ->; reflexivity.
      * split; discriminate.
    + split; [| discriminate].
      destruct (lone_surrogate a rest); [discriminate |].
      destruct (encodeURIComponent rest) as [seg' |] eqn:Hrest; [| discriminate].
      intros H. exfalso.
      apply (f_equal (fun o => match o with
                               | Some x => String.length x
                               | None => 0%nat
                               end)) in H.
      cbn in H.
      destruct (encode_bounds rest seg' Hrest) as [_ Hl]. lia.
Qed.

Lemma getEthnicGroups_calls (this : CultureCoded) (country : string) (net : Fetch) :
  calls (getEthnicGroups this country net) =
  match encodeURIComponent country with
  | Some segment => [sent_request this GET ("/api/v1/ethnic-groups/" ++ segment) None]
  | None => []
  end.
Proof.
  unfold getEthnicGroups. destruct (encodeURIComponent country); [| reflexivity].
  now rewrite request_calls.
Qed.

Lemma sent_request_path (this : CultureCoded) (method : Method) (prefix x y : string)
    (body : option string) :
  [sent_request this method (prefix ++ x) body] =
  [sent_request this method (prefix ++ y) body] ->
  x = y.
Proof.
  intros H.
  apply (f_equal (fun l => match l with r :: _ => req_url r | [] => "" end)) in H.
  unfold sent_request in H. cbn [req_url] in H.
  exact (append_cancel _ _ _ (append_cancel _ _ _ H)).
Qed.

(** X8: [getEthnicGroups] puts the country into the path exactly as given
    if and only if the country consists of letters, digits and the marks
    [- _ . ! ~ * ' ( )]; any other character, the percent sign included, is
    rewritten. *)
Theorem getEthnicGroups_verbatim_iff (this : CultureCoded) (country : string)
    (net : Fetch) :
  calls (getEthnicGroups this country net) =
  [sent_request this GET ("/api/v1/ethnic-groups/" ++ country) None]
  <-> all_unreserved country = true.
Proof.
  rewrite getEthnicGroups_calls, <- encode_fixed_iff. split.
  - destruct (encodeURIComponent country) as [segment |]; [| discriminate].
    intros H. apply sent_request_path in H. now subst segment.
  - intros ->. reflexivity.
Qed.

(** X9: two different countries never give the same request: the escaping
    loses nothing. *)
Theorem getEthnicGroups_distinct_countries (this : CultureCoded)
    (country1 country2 : string) (net1 net2 : Fetch) :
  has_lone_surrogate country1 = false ->
  country1 <> country2 ->
  calls (getEthnicGroups this country1 net1) <> calls (getEthnicGroups this country2 net2).
Proof.
  intros Hwf Hne. rewrite !getEthnicGroups_calls.
  destruct (encodeURIComponent country1) as [s1 |] eqn:H1.
  - destruct (encodeURIComponent country2) as [s2 |] eqn:H2; [| discriminate].
    intros H. apply sent_request_path in H. subst s2.
    apply encode_round_trip in H1, H2. rewrite H1 in H2.
    injection H2 as H2. contradiction.
  - apply encode_throws_iff in H1. rewrite H1 in Hwf. discriminate Hwf.
Qed.

Lemma getEthnicGroups_distinct_countries_witness :
  calls (getEthnicGroups example_client "Niger" (answering 200 None)) <>
  calls (getEthnicGroups example_client "Nigeria" (answering 200 None)).
Proof.
  apply (getEthnicGroups_distinct_countries example_client "Niger" "Nigeria"
           (answering 200 None) (answering 200 None)).
  - reflexivity.
  - discriminate.
Defined.

(** X10: [getEthnicGroups] rejects with a [URIError], before any request,
    exactly for the countries in which a surrogate stands alone. *)
Theorem getEthnicGroups_URIError_iff (this : CultureCoded) (country : string)
    (net : Fetch) :
  getEthnicGroups this country net = ([], inl URIError)
  <-> has_lone_surrogate country = true.
Proof.
  rewrite <- encode_throws_iff. split.
  - intros H. apply (f_equal fst) in H.
    change (calls (getEthnicGroups this country net) = []) in H.
    rewrite getEthnicGroups_calls in H.
    now destruct (encodeURIComponent country).
  - intros H. unfold getEthnicGroups. now rewrite H.
Qed.

(** X11: the segment [getEthnicGroups] appends is made of ASCII characters
    only, whatever the country, and is at least as long as the country and
    at most three times as long. *)
Theorem getEthnicGroups_segment_bounds (this : CultureCoded) (country : string)
    (net : Fetch) (rq : HttpRequest) :
  calls (getEthnicGroups this country net) = [rq] ->
  exists segment,
    req_url rq = this_baseUrl this ++ "/api/v1/ethnic-groups/" ++ segment /\
    all_ascii segment = true /\
    (String.length country <= String.length segment <= 3 * String.length country)%nat.
Proof.
  rewrite getEthnicGroups_calls.
  destruct (encodeURIComponent country) as [segment |] eqn:Henc; [| discriminate].
  intros H. injection H as <-.
  exists segment. split; [reflexivity |].
  exact (encode_bounds country segment Henc).
Qed.

Lemma getEthnicGroups_segment_bounds_witness :
  exists segment,
    req_url (sent_request example_client GET
               "/api/v1/ethnic-groups/S%C3%A3o%20Tom%C3%A9" None) =
    this_baseUrl example_client ++ "/api/v1/ethnic-groups/" ++ segment /\
    all_ascii segment = true /\
    (String.length "São Tomé" <= String.length segment <= 3 * String.length "São Tomé")%nat.
Proof.
  apply (getEthnicGroups_segment_bounds example_client "São Tomé" (answering 200 None)).
  reflexivity.
Defined.

(** X12: [deleteAnalysis] addresses the URL that [getAnalysis] reads for
    the same id, with the same headers and no body; only the method
    differs.  The id is put into the path as it is, without escaping. *)
Theorem deleteAnalysis_targets_getAnalysis (this : CultureCoded) (id : string)
    (net net' : Fetch) :
  exists read delete,
    calls (getAnalysis this id net) = [read] /\
    calls (deleteAnalysis this id net') = [delete] /\
    req_url read = this_baseUrl this ++ "/api/v1/analyses/" ++ id /\
    req_url delete = req_url read /\
    req_headers delete = req_headers read /\
    req_method read = GET /\ req_method delete = DELETE /\
    req_body read = None /\ req_body delete = None.
Proof.
  exists (sent_request this GET ("/api/v1/analyses/" ++ id) None),
         (sent_request this DELETE ("/api/v1/analyses/" ++ id) None).
  split; [apply request_calls |].
  split; [| repeat split].
  pose proof (request_calls this DELETE ("/api/v1/analyses/" ++ id) None net') as Hc.
  unfold deleteAnalysis, bind, ret, calls in Hc |- *.
  destruct (request this DELETE ("/api/v1/analyses/" ++ id) None net') as [t [e | v]];
    cbn in Hc |- *; rewrite Hc; reflexivity.
Qed.

(** ** Telling the errors apart *)


